(** * Hospital queue management: the ML queue manager

    A shallow embedding of [backend/ml_queue_manager.py] (class
    [QueueMLModel]) and of the part of [backend/app.py] that calls it
    ([book_appointment]).

    Python [float] is IEEE 754 binary64.  It is modelled by the
    [spec_float] type of the standard library with precision 53 and
    maximal exponent 1024, whose operations are executable and round to
    nearest even, as CPython's do.  Python [int] is [Z]; [str] is
    [string], restricted to ASCII text.  Exceptions are the [Raise] results
    of a small error monad.  The scikit-learn estimators are not code of
    this repository: they are the fields of the class [Libs]. *)

From Stdlib Require Import ZArith List Bool Lia String Ascii DecimalString.
From Stdlib Require Import Permutation.
From Stdlib Require Import Floats.SpecFloat.
Import ListNotations.

Local Open Scope Z_scope.

(** ** Python floats *)

Module Float.

Definition float : Type := spec_float.

Definition prec : Z := 53.
Definition emax : Z := 1024.

Definition add : float -> float -> float := SFadd prec emax.
Definition sub : float -> float -> float := SFsub prec emax.
Definition mul : float -> float -> float := SFmul prec emax.
Definition ltb : float -> float -> bool := SFltb.
Definition leb : float -> float -> bool := SFleb.

(** [x > y] is [y < x]. *)
Definition gtb (x y : float) : bool := ltb y x.

Definition inf : float := S754_infinity false.

(** The correctly rounded quotient of two integers, [d] not zero: what
    [a / b] computes on Python ints, and the value a decimal literal
    [n/10^k] denotes.  An infinite result stands for an overflow. *)
Definition of_ratio (n d : Z) : float :=
  match n, d with
  | Z0, Zneg _ => S754_zero true
  | Z0, _ => S754_zero false
  | _, Z0 => S754_nan
  | Zpos p, Zpos q => SFdiv prec emax (S754_finite false p 0) (S754_finite false q 0)
  | Zpos p, Zneg q => SFdiv prec emax (S754_finite false p 0) (S754_finite true q 0)
  | Zneg p, Zpos q => SFdiv prec emax (S754_finite true p 0) (S754_finite false q 0)
  | Zneg p, Zneg q => SFdiv prec emax (S754_finite true p 0) (S754_finite true q 0)
  end.

Definition is_finite (x : float) : bool :=
  match x with
  | S754_zero _ | S754_finite _ _ _ => true
  | _ => false
  end.

Definition is_nan (x : float) : bool :=
  match x with S754_nan => true | _ => false end.

(** The decimal literals of the source. *)
Definition f0_0 : float := S754_zero false.
Definition f0_1 : float := Eval vm_compute in of_ratio 1 10.
Definition f0_15 : float := Eval vm_compute in of_ratio 15 100.
Definition f0_2 : float := Eval vm_compute in of_ratio 2 10.
Definition f0_3 : float := Eval vm_compute in of_ratio 3 10.
Definition f0_5 : float := Eval vm_compute in of_ratio 5 10.
Definition f0_7 : float := Eval vm_compute in of_ratio 7 10.
Definition f0_75 : float := Eval vm_compute in of_ratio 75 100.
Definition f0_8 : float := Eval vm_compute in of_ratio 8 10.
Definition f1_0 : float := Eval vm_compute in of_ratio 1 1.
Definition f1_3 : float := Eval vm_compute in of_ratio 13 10.

End Float.

Import Float.

(** ** Exceptions *)

Inductive exn : Type :=
| OverflowError
| ValueError
| ZeroDivisionError
| NotFittedError.

Inductive result (A : Type) : Type :=
| Ok (a : A)
| Raise (e : exn).

Arguments Ok {A} a.
Arguments Raise {A} e.

Definition bind {A B : Type} (r : result A) (k : A -> result B) : result B :=
  match r with
  | Ok a => k a
  | Raise e => Raise e
  end.

Notation "x <- c ;; k" := (bind c (fun x => k))
  (at level 61, c at next level, right associativity).
Notation "' p <- c ;; k" := (bind c (fun p => k))
  (at level 61, p pattern, c at next level, right associativity).

(** [for x in xs: s = step(s, x)], an exception leaving the loop. *)
Fixpoint for_each {A S : Type} (step : S -> A -> result S) (xs : list A) (s : S)
  : result S :=
  match xs with
  | [] => Ok s
  | x :: rest => s' <- step s x ;; for_each step rest s'
  end.

Fixpoint map_result {A B : Type} (f : A -> result B) (xs : list A) : result (list B) :=
  match xs with
  | [] => Ok []
  | x :: rest => y <- f x ;; ys <- map_result f rest ;; Ok (y :: ys)
  end.

(** ** Python built-ins *)

(** [a / b] on ints: the correctly rounded quotient. *)
Definition int_truediv (a b : Z) : result float :=
  if b =? 0 then Raise ZeroDivisionError
  else match of_ratio a b with
       | S754_infinity _ => Raise OverflowError
       | q => Ok q
       end.

(** [int(x)] on a float: truncation toward zero. *)
Definition py_int (x : float) : result Z :=
  match x with
  | S754_nan => Raise ValueError
  | S754_infinity _ => Raise OverflowError
  | S754_zero _ => Ok 0
  | S754_finite s m e =>
      let n := if s then Zneg m else Zpos m in
      Ok (if 0 <=? e then n * 2 ^ e else Z.quot n (2 ^ (- e)))
  end.

(** [min(a, b)]: the first argument unless the second is smaller. *)
Definition py_min (a b : float) : float := if ltb b a then b else a.

Definition lower_ascii (c : ascii) : ascii :=
  let n := nat_of_ascii c in
  if ((65 <=? n) && (n <=? 90))%nat then ascii_of_nat (n + 32) else c.

(** [s.lower()] *)
Fixpoint lower (s : string) : string :=
  match s with
  | EmptyString => EmptyString
  | String c rest => String (lower_ascii c) (lower rest)
  end.

(** [k in s] on strings *)
Fixpoint contains (k s : string) : bool :=
  if prefix k s then true
  else match s with
       | EmptyString => false
       | String _ rest => contains k rest
       end.

(** [datetime]: the proleptic Gregorian ordinal of the date and the time
    of day. *)
Record datetime : Type := {
  toordinal : Z;
  dt_hour : Z;
  dt_minute : Z;
  dt_second : Z;
  dt_microsecond : Z
}.

(** [datetime.weekday()]: Monday is 0. *)
Definition weekday (t : datetime) : Z := (toordinal t + 6) mod 7.

(** ** Data *)

(** A row of [Patient]: the attributes the model reads. *)
Record Patient : Type := {
  age : Z;
  medical_history : option string
}.

(** A row of [Doctor]. *)
Record Doctor : Type := {
  doc_id : Z;
  doc_department_id : Z;
  doc_avg_consultation_time : Z;
  max_patients_per_day : Z;
  current_queue_count : Z;
  is_available : bool
}.

(** The dict [book_appointment] builds for each candidate doctor. *)
Record DoctorInfo : Type := {
  doctor_id : Z;
  current_queue : Z;
  avg_consultation_time : Z;
  today_appointments : Z;
  max_capacity : Z
}.

(** The feature row, in the order of the source:
    queue length, average consultation time, hour, day of week,
    doctor efficiency. *)
Record Features : Type := {
  f_queue_length : Z;
  f_avg_consultation : Z;
  f_hour : Z;
  f_day : Z;
  f_efficiency : float
}.

(** A completed appointment as [update_model] reads it. *)
Record CompletedAppointment : Type := {
  queue_length : Z;
  apt_avg_consultation_time : Z;
  hour_of_day : Z;
  day_of_week : Z;
  doctor_efficiency : float;
  actual_wait_time : Z
}.

Inductive num : Type :=
| Int (z : Z)
| Flt (f : float).

(** ** The numeric libraries

    scikit-learn's [StandardScaler] and [RandomForestRegressor], and the
    draws of numpy's generator seeded with 42.  An estimator object keeps
    its hyper-parameters and, once fitted, its fitted parameters; [fit]
    computes the fitted parameters from the hyper-parameters and the data
    alone. *)
Class Libs : Type := {
  ScalerHyper : Type;
  ScalerParams : Type;
  ForestHyper : Type;
  ForestParams : Type;
  Scaled : Type;
  scaler_fit : ScalerHyper -> list Features -> result ScalerParams;
  scaler_transform : ScalerParams -> Features -> result Scaled;
  forest_fit : ForestHyper -> list Scaled -> list num -> result ForestParams;
  forest_predict : ForestParams -> Scaled -> result float;
  (** [StandardScaler()] *)
  standard_scaler : ScalerHyper;
  (** [RandomForestRegressor(n_estimators=100, max_depth=10, random_state=42)] *)
  random_forest : ForestHyper;
  (** [X_train] and [y_train] of [_train_initial_model] *)
  synthetic_X : list Features;
  synthetic_y : list num
}.

Record Estimator (H P : Type) : Type := {
  hyper : H;
  fitted : option P
}.

Arguments hyper {H P} _.
Arguments fitted {H P} _.

Inductive file (A : Type) : Type :=
| Absent
| Unreadable
| Pickled (a : A).

Arguments Absent {A}.
Arguments Unreadable {A}.
Arguments Pickled {A} a.

(** ** QueueMLModel *)

Section QueueMLModel.

Context {L : Libs}.

Definition Scaler : Type := Estimator ScalerHyper ScalerParams.
Definition Forest : Type := Estimator ForestHyper ForestParams.

(** [scaler.transform(features)] on one row; an estimator that was never
    fitted raises scikit-learn's [NotFittedError]. *)
Definition transform (s : Scaler) (x : Features) : result Scaled :=
  match fitted s with
  | None => Raise NotFittedError
  | Some p => scaler_transform p x
  end.

(** [model.predict(features_scaled)[0]] *)
Definition predict (m : Forest) (x : Scaled) : result float :=
  match fitted m with
  | None => Raise NotFittedError
  | Some p => forest_predict p x
  end.

(** [scaler.fit_transform(X)]: fit on [X], then transform [X]. *)
Definition fit_transform (s : Scaler) (X : list Features)
  : result (Scaler * list Scaled) :=
  p <- scaler_fit (hyper s) X ;;
  X_scaled <- map_result (scaler_transform p) X ;;
  Ok ({| hyper := hyper s; fitted := Some p |}, X_scaled).

(** [model.fit(X, y)] *)
Definition fit (m : Forest) (X : list Scaled) (y : list num) : result Forest :=
  p <- forest_fit (hyper m) X y ;;
  Ok {| hyper := hyper m; fitted := Some p |}.

(** The attributes of a [QueueMLModel] object. *)
Record QueueMLModel : Type := {
  wait_time_model : Forest;
  scaler : Scaler;
  is_trained : bool
}.

(** What the object shares with the process: the two pickle files and the
    standard output. *)
Record World : Type := {
  queue_model_pkl : file Forest;
  scaler_pkl : file Scaler;
  stdout : list string
}.

Definition print (line : string) (w : World) : World :=
  {| queue_model_pkl := queue_model_pkl w;
     scaler_pkl := scaler_pkl w;
     stdout := stdout w ++ [line] |}.

(** The two [joblib.dump] calls. *)
Definition dump (self : QueueMLModel) (w : World) : World :=
  {| queue_model_pkl := Pickled (wait_time_model self);
     scaler_pkl := Pickled (scaler self);
     stdout := stdout w |}.

Definition _load_model (self : QueueMLModel) (w : World) : QueueMLModel * World :=
  match queue_model_pkl w, scaler_pkl w with
  | Absent, _ | _, Absent => (self, w)
  | Pickled m, Pickled s =>
      ({| wait_time_model := m; scaler := s; is_trained := true |},
       print "Loaded pre-trained model" w)
  | Pickled m, Unreadable =>
      ({| wait_time_model := m; scaler := scaler self; is_trained := is_trained self |},
       print "Failed to load model, will train new one" w)
  | Unreadable, _ =>
      (self, print "Failed to load model, will train new one" w)
  end.

Definition _train_initial_model (self : QueueMLModel) (w : World)
  : result (QueueMLModel * World) :=
  let w := print "Training initial model with synthetic data..." w in
  let X_train := synthetic_X in
  let y_train := synthetic_y in
  '(scaler', X_train_scaled) <- fit_transform (scaler self) X_train ;;
  model' <- fit (wait_time_model self) X_train_scaled y_train ;;
  let self := {| wait_time_model := model'; scaler := scaler'; is_trained := true |} in
  let w := dump self w in
  Ok (self, print "Initial model trained and saved" w).

(** Lines 15 to 21: the attributes before any loading or training. *)
Definition new_object : QueueMLModel :=
  {| wait_time_model := {| hyper := random_forest; fitted := None |};
     scaler := {| hyper := standard_scaler; fitted := None |};
     is_trained := false |}.

Definition __init__ (w : World) : result (QueueMLModel * World) :=
  let self := new_object in
  let '(self, w) := _load_model self w in
  if negb (is_trained self) then _train_initial_model self w
  else Ok (self, w).

(** Line 106: the load ratio; the int [0] of the source stands as [0.0],
    which multiplies and compares alike. *)
Definition load_ratio (today_load max_capacity : Z) : result float :=
  if 0 <? max_capacity then int_truediv today_load max_capacity else Ok f0_0.

(** Line 107. *)
Definition efficiency_of (load_ratio : float) : float :=
  sub f1_0 (mul load_ratio f0_3).

(** One iteration of the loop of [assign_doctor]. *)
Definition assign_step (self : QueueMLModel) (current_hour current_day : Z)
    (acc : option Z * float) (doc_info : DoctorInfo) : result (option Z * float) :=
  let '(best_doctor_id, min_wait_time) := acc in
  let queue_length := current_queue doc_info in
  let avg_consultation := avg_consultation_time doc_info in
  let today_load := today_appointments doc_info in
  let max_capacity := max_capacity doc_info in
  load_ratio <- load_ratio today_load max_capacity ;;
  let efficiency := efficiency_of load_ratio in
  let features :=
    {| f_queue_length := queue_length;
       f_avg_consultation := avg_consultation;
       f_hour := current_hour;
       f_day := current_day;
       f_efficiency := efficiency |} in
  features_scaled <- transform (scaler self) features ;;
  predicted_wait <- predict (wait_time_model self) features_scaled ;;
  let predicted_wait :=
    if gtb load_ratio f0_8 then mul predicted_wait f1_3 else predicted_wait in
  if ltb predicted_wait min_wait_time
  then Ok (Some (doctor_id doc_info), predicted_wait)
  else Ok (best_doctor_id, min_wait_time).

(** [assign_doctor]; [t1] and [t2] are the values of its two calls of
    [datetime.now()]. *)
Definition assign_doctor (self : QueueMLModel) (t1 t2 : datetime)
    (doctor_features : list DoctorInfo) (patient : Patient) : result (option Z * Z) :=
  let best_doctor_id : option Z := None in
  let min_wait_time := inf in
  let current_hour := dt_hour t1 in
  let current_day := weekday t2 in
  '(best_doctor_id, min_wait_time) <-
     for_each (assign_step self current_hour current_day) doctor_features
       (best_doctor_id, min_wait_time) ;;
  wait <- py_int min_wait_time ;;
  Ok (best_doctor_id, wait).

Definition emergency_keywords : list string :=
  ["heart"; "chest pain"; "breathing"; "diabetic";
   "emergency"; "severe"; "acute"; "critical"]%string.

(** The keyword loop of [calculate_priority], with its [break]. *)
Fixpoint keyword_loop (keywords : list string) (medical_history_lower : string)
    (priority : float) : float :=
  match keywords with
  | [] => priority
  | keyword :: rest =>
      if contains keyword medical_history_lower then add priority f0_1
      else keyword_loop rest medical_history_lower priority
  end.

(** The score before the final [min]. *)
Definition raw_priority (patient : Patient) : float :=
  let priority := f0_5 in
  let priority :=
    if 65 <? age patient then add priority f0_2
    else if age patient <? 5 then add priority f0_15
    else priority in
  match medical_history patient with
  | None | Some EmptyString => priority
  | Some history => keyword_loop emergency_keywords (lower history) priority
  end.

Definition calculate_priority (patient : Patient) : float :=
  py_min (raw_priority patient) f1_0.

Definition features_of (apt : CompletedAppointment) : Features :=
  {| f_queue_length := queue_length apt;
     f_avg_consultation := apt_avg_consultation_time apt;
     f_hour := hour_of_day apt;
     f_day := day_of_week apt;
     f_efficiency := doctor_efficiency apt |}.

Definition updated_message (n : nat) : string :=
  ("Model updated with " ++ NilZero.string_of_uint (Nat.to_uint n)
     ++ " new data points")%string.

(** [update_model]: the object and the world it leaves, and what it
    returns, which is [None] on both paths, or the exception that escapes.

    scikit-learn fits an estimator in place.  [StandardScaler.fit] forgets
    the fitted parameters before it looks at the data, so an exception of
    line 197 leaves the scaler of the object reset; the forest validates
    the data before it changes, so an exception of line 198 leaves the new
    scaler with the forest of before.  Nothing is pickled or printed then.
    Writing the two files is taken to succeed. *)
Definition update_model_in_place (self : QueueMLModel) (w : World)
    (appointment_data : list CompletedAppointment)
  : QueueMLModel * World * result unit :=
  if (List.length appointment_data <? 50)%nat then (self, w, Ok tt)
  else
    let X_new := map features_of appointment_data in
    let y_new := map (fun apt => Int (actual_wait_time apt)) appointment_data in
    match scaler_fit (hyper (scaler self)) X_new with
    | Raise e =>
        ({| wait_time_model := wait_time_model self;
            scaler := {| hyper := hyper (scaler self); fitted := None |};
            is_trained := is_trained self |}, w, Raise e)
    | Ok p =>
        let scaler' := {| hyper := hyper (scaler self); fitted := Some p |} in
        match (X_scaled <- map_result (scaler_transform p) X_new ;;
               fit (wait_time_model self) X_scaled y_new) with
        | Raise e =>
            ({| wait_time_model := wait_time_model self;
                scaler := scaler';
                is_trained := is_trained self |}, w, Raise e)
        | Ok model' =>
            let self :=
              {| wait_time_model := model'; scaler := scaler';
                 is_trained := is_trained self |} in
            let w := dump self w in
            (self, print (updated_message (List.length appointment_data)) w, Ok tt)
        end
    end.

(** [update_model] for a caller that goes on after it: the object and the
    world it leaves when it returns, the exception when it raises. *)
Definition update_model (self : QueueMLModel) (w : World)
    (appointment_data : list CompletedAppointment) : result (QueueMLModel * World) :=
  match update_model_in_place self w appointment_data with
  | (self', w', Ok _) => Ok (self', w')
  | (_, _, Raise e) => Raise e
  end.

(** ** The caller: [book_appointment] up to the assignment *)

Inductive response : Type :=
| PatientNotFound404
| NoDoctorsAvailable400
| Assigned (best_doctor_id : option Z) (estimated_wait : Z) (priority_score : float).

(** [Doctor.query.filter_by(department_id=..., is_available=True).all()] *)
Definition available_doctors (doctors : list Doctor) (department_id : Z) : list Doctor :=
  filter (fun doc => (doc_department_id doc =? department_id) && is_available doc) doctors.

(** [today_count doc_id] is the count of today's waiting and in-progress
    appointments of the doctor. *)
Definition doctor_features_of (today_count : Z -> Z) (available : list Doctor)
  : list DoctorInfo :=
  map (fun doc =>
         {| doctor_id := doc_id doc;
            current_queue := current_queue_count doc;
            avg_consultation_time := doc_avg_consultation_time doc;
            today_appointments := today_count (doc_id doc);
            max_capacity := max_patients_per_day doc |}) available.

Definition book_appointment (self : QueueMLModel) (t1 t2 : datetime)
    (patient : option Patient) (doctors : list Doctor) (today_count : Z -> Z)
    (department_id : Z) : result response :=
  match patient with
  | None => Ok PatientNotFound404
  | Some patient =>
      match available_doctors doctors department_id with
      | [] => Ok NoDoctorsAvailable400
      | available =>
          let doctor_features := doctor_features_of today_count available in
          '(best_doctor_id, estimated_wait) <-
             assign_doctor self t1 t2 doctor_features patient ;;
          Ok (Assigned best_doctor_id estimated_wait (calculate_priority patient))
      end
  end.

End QueueMLModel.

(** ** The claims of the specification, as it words them *)

(** The floor of a finite float. *)
Definition floor (x : float) : option Z :=
  match x with
  | S754_zero _ => Some 0
  | S754_finite s m e =>
      let n := if s then Zneg m else Zpos m in
      Some (if 0 <=? e then n * 2 ^ e else n / 2 ^ (- e))
  | _ => None
  end.

(** [1.0 - min(load_ratio, 1.0) * 0.3], the load ratio taken as 0 when the
    capacity is not positive. *)
Definition efficiency_claimed (appointments_today max_daily_capacity : Z) : result float :=
  ratio <- (if max_daily_capacity <=? 0 then Ok f0_0
            else int_truediv appointments_today max_daily_capacity) ;;
  Ok (sub f1_0 (mul (py_min ratio f1_0) f0_3)).

Definition age_bonus (age : Z) : option float :=
  if 65 <? age then Some f0_2
  else if age <? 5 then Some f0_15
  else None.

(** Some keyword occurs in the history, case ignored. *)
Definition keyword_matches (history : option string) : bool :=
  match history with
  | None => false
  | Some h => existsb (fun keyword => contains keyword (lower h)) emergency_keywords
  end.

Section Candidates.

Context {L : Libs}.

(** Lines 100 to 122 for one candidate: its load ratio and the wait the
    model predicts for it, before any penalty. *)
Definition raw_prediction (self : QueueMLModel) (current_hour current_day : Z)
    (doc_info : DoctorInfo) : result (float * float) :=
  ratio <- load_ratio (today_appointments doc_info) (max_capacity doc_info) ;;
  features_scaled <-
    transform (scaler self)
      {| f_queue_length := current_queue doc_info;
         f_avg_consultation := avg_consultation_time doc_info;
         f_hour := current_hour;
         f_day := current_day;
         f_efficiency := efficiency_of ratio |} ;;
  predicted_wait <- predict (wait_time_model self) features_scaled ;;
  Ok (ratio, predicted_wait).

(** The efficiency entry of the feature row of a candidate: lines 106
    and 107. *)
Definition efficiency_feature (today_load max_capacity : Z) : result float :=
  ratio <- load_ratio today_load max_capacity ;;
  Ok (efficiency_of ratio).

(** The overload penalty: a load ratio above 0.8 multiplies the wait by 1.3. *)
Definition penalised (ratio predicted_wait : float) : float :=
  if gtb ratio f0_8 then mul predicted_wait f1_3 else predicted_wait.

(** The adjusted wait of a candidate. *)
Definition adjusted_wait (self : QueueMLModel) (current_hour current_day : Z)
    (doc_info : DoctorInfo) : result float :=
  '(ratio, predicted_wait) <- raw_prediction self current_hour current_day doc_info ;;
  Ok (penalised ratio predicted_wait).

(** The same object with another value of the flag. *)
Definition with_is_trained (self : QueueMLModel) (flag : bool) : QueueMLModel :=
  {| wait_time_model := wait_time_model self;
     scaler := scaler self;
     is_trained := flag |}.

Definition is_fitted {H P : Type} (e : Estimator H P) : bool :=
  match fitted e with Some _ => true | None => false end.

(** The pickle files, where they hold an estimator, hold a fitted one, as
    every [joblib.dump] of the source writes them. *)
Definition pickles_fitted (w : World) : Prop :=
  (forall m, queue_model_pkl w = Pickled m -> is_fitted m = true) /\
  (forall s, scaler_pkl w = Pickled s -> is_fitted s = true).

End Candidates.

(** ** A small instance of the libraries, to run the model on

    The scaler is the identity and the regressor returns queue length
    times consultation time times efficiency, the relation the synthetic
    training data encodes. *)
Definition toy_predict (x : Features) : result float :=
  Ok (mul (of_ratio (f_queue_length x * f_avg_consultation x) 1) (f_efficiency x)).

Definition toy_libs : Libs :=
  {| ScalerHyper := unit;
     ScalerParams := unit;
     ForestHyper := unit;
     ForestParams := unit;
     Scaled := Features;
     scaler_fit := fun _ _ => Ok tt;
     scaler_transform := fun _ x => Ok x;
     forest_fit := fun _ _ _ => Ok tt;
     forest_predict := fun _ x => toy_predict x;
     standard_scaler := tt;
     random_forest := tt;
     synthetic_X := [];
     synthetic_y := [] |}.

Definition toy_fitted : Estimator unit unit := {| hyper := tt; fitted := Some tt |}.

Definition toy_model : @QueueMLModel toy_libs :=
  @Build_QueueMLModel toy_libs toy_fitted toy_fitted true.

Definition toy_world : @World toy_libs :=
  @Build_World toy_libs Absent Absent [].

Definition monday_9am : datetime :=
  {| toordinal := 739929; dt_hour := 9; dt_minute := 0; dt_second := 0;
     dt_microsecond := 0 |}.

Definition doctor (id queue consultation today capacity : Z) : DoctorInfo :=
  {| doctor_id := id; current_queue := queue; avg_consultation_time := consultation;
     today_appointments := today; max_capacity := capacity |}.

Definition patient_of (years : Z) (history : string) : Patient :=
  {| age := years; medical_history := Some history |}.


Definition two_candidates : list DoctorInfo :=
  [doctor 1 3 10 5 20; doctor 2 2 10 18 20].

(** Two candidates alike but for today's load: 16 and 17 of 20. *)
Definition at_threshold : DoctorInfo := doctor 1 4 10 16 20.
Definition above_threshold : DoctorInfo := doctor 2 4 10 17 20.

(** The same hour and weekday a week later, and another minute. *)
Definition next_monday_9am : datetime :=
  {| toordinal := 739936; dt_hour := 9; dt_minute := 30; dt_second := 12;
     dt_microsecond := 7 |}.

Definition toy_untrained : @QueueMLModel toy_libs :=
  @Build_QueueMLModel toy_libs toy_fitted toy_fitted false.

Definition toy_doctors : list Doctor :=
  [ {| doc_id := 1; doc_department_id := 1; doc_avg_consultation_time := 15;
       max_patients_per_day := 40; current_queue_count := 2; is_available := false |};
    {| doc_id := 2; doc_department_id := 2; doc_avg_consultation_time := 15;
       max_patients_per_day := 40; current_queue_count := 0; is_available := true |} ].

Definition toy_appointment : CompletedAppointment :=
  {| queue_length := 3; apt_avg_consultation_time := 15; hour_of_day := 10;
     day_of_week := 2; doctor_efficiency := f1_0; actual_wait_time := 40 |}.


Definition toy_unfitted : @QueueMLModel toy_libs :=
  @Build_QueueMLModel toy_libs {| hyper := tt; fitted := None |}
    {| hyper := tt; fitted := None |} false.

Definition batch_of (n : nat) : list CompletedAppointment := repeat toy_appointment n.


(** The world the constructor leaves when it starts from [toy_world]. *)
Definition toy_world_trained : @World toy_libs :=
  @Build_World toy_libs (Pickled toy_fitted) (Pickled toy_fitted)
    ["Training initial model with synthetic data...";
     "Initial model trained and saved"]%string.

(** ** Predicates of the rounding analysis *)

(** [x] is zero or a positive finite float of value at most [2^k], whose
    exponent is at most the one of [2^k]. *)
Definition below_pow2 (k : Z) (x : float) : Prop :=
  match x with
  | S754_zero _ => True
  | S754_finite false m e => e <= k - 52 /\ Zpos m <= 2 ^ (k - e)
  | _ => False
  end.

(** The value a shift register stands for is at most [bound], and is
    [bound] only when nothing was shifted out. *)
Definition at_most (bound : Z) (r : shr_record) : Prop :=
  0 <= shr_m r /\ shr_m r <= bound /\
  (shr_m r = bound -> shr_r r = false /\ shr_s r = false).

(** A float in [[0.5, 1.0]] as the rounding of the last step leaves it. *)
Definition half_to_one (x : float) : Prop :=
  exists m, (x = S754_finite false m (-53) /\ 2 ^ 52 <= Zpos m < 2 ^ 53) \/
            (x = S754_finite false m (-52) /\ Zpos m = 2 ^ 52).


(** A candidate whose load ratio is too large for a float. *)
Definition overflowing : DoctorInfo := doctor 3 1 10 (2 ^ 1100) 1.

Definition toy_patient : Patient := patient_of 40 "".

Definition clinic : list Doctor :=
  [ {| doc_id := 1; doc_department_id := 1; doc_avg_consultation_time := 15;
       max_patients_per_day := 40; current_queue_count := 2; is_available := false |};
    {| doc_id := 2; doc_department_id := 2; doc_avg_consultation_time := 15;
       max_patients_per_day := 40; current_queue_count := 0; is_available := true |};
    {| doc_id := 3; doc_department_id := 1; doc_avg_consultation_time := 12;
       max_patients_per_day := 40; current_queue_count := 1; is_available := true |} ].


(** ** The life of the object *)

Section Persistence.

Context {L : Libs}.

(** The pickle files hold the estimators of the object. *)
Definition synced (self : QueueMLModel) (w : World) : Prop :=
  queue_model_pkl w = Pickled (wait_time_model self) /\
  scaler_pkl w = Pickled (scaler self).

(** Successive calls of [update_model], one per batch. *)
Fixpoint update_models (self : QueueMLModel) (w : World)
    (batches : list (list CompletedAppointment)) : result (QueueMLModel * World) :=
  match batches with
  | [] => Ok (self, w)
  | batch :: rest =>
      '(self', w') <- update_model self w batch ;;
      update_models self' w' rest
  end.

End Persistence.


(** The world [update_model] leaves on 50 samples, from [toy_world]. *)
Definition toy_world_updated : @World toy_libs :=
  @Build_World toy_libs (Pickled toy_fitted) (Pickled toy_fitted)
    ["Model updated with 50 new data points"]%string.





(** ** predict_department_load *)

(** [float(z)] where an int meets a float: the nearest float, and an
    OverflowError when there is none. *)
Definition float_of_int (z : Z) : result float :=
  match of_ratio z 1 with
  | S754_infinity _ => Raise OverflowError
  | q => Ok q
  end.

(** [z < f] for an int and a float: CPython compares the exact values. *)
Definition int_lt_float (z : Z) (f : float) : bool :=
  match f with
  | S754_nan => false
  | S754_infinity s => negb s
  | S754_zero _ => z <? 0
  | S754_finite s m e =>
      let n := if s then Zneg m else Zpos m in
      if 0 <=? e then z <? n * 2 ^ e else z * 2 ^ (- e) <? n
  end.

Definition f100_0 : float := Eval vm_compute in of_ratio 100 1.

(** [sum(f(doc) for doc in doctors_data)] *)
Definition sum_of (f : DoctorInfo -> Z) (doctors_data : list DoctorInfo) : Z :=
  fold_left (fun total doc => total + f doc) doctors_data 0.

(** The dict [predict_department_load] returns. *)
Record DepartmentLoad : Type := {
  total_queue : Z;
  capacity_utilization : num;
  avg_wait_time : num;
  recommendation : string
}.

Definition predict_department_load (department_id : Z)
    (doctors_data : list DoctorInfo) : result DepartmentLoad :=
  let total_queue := sum_of current_queue doctors_data in
  let total_capacity := sum_of max_capacity doctors_data in
  avg_wait <-
    match doctors_data with
    | [] => Ok (Int 0)
    | _ :: _ =>
        q <- int_truediv
               (sum_of (fun doc => current_queue doc * avg_consultation_time doc)
                  doctors_data)
               (Z.of_nat (List.length doctors_data)) ;;
        Ok (Flt q)
    end ;;
  utilization <-
    (if 0 <? total_capacity
     then q <- int_truediv total_queue total_capacity ;; Ok (Flt (mul q f100_0))
     else Ok (Int 0)) ;;
  capacity <- float_of_int total_capacity ;;
  let threshold := mul capacity f0_7 in
  Ok {| total_queue := total_queue;
        capacity_utilization := utilization;
        avg_wait_time := avg_wait;
        recommendation :=
          if int_lt_float total_queue threshold then "optimal" else "high_load" |}.

Definition three_doctors : list DoctorInfo :=
  [doctor 1 3 10 5 20; doctor 2 2 10 18 20; doctor 3 0 15 0 40].

(** A department whose doctors have no capacity left to give. *)
Definition no_capacity : list DoctorInfo :=
  [doctor 1 3 10 5 0; doctor 2 2 10 18 0].


(** The sign a float carries, when it is a number. *)
Definition has_sign (s : bool) (x : float) : Prop :=
  match x with
  | S754_zero s' | S754_infinity s' | S754_finite s' _ _ => s' = s
  | S754_nan => False
  end.


(** A capacity too large for a float. *)
Definition huge_capacity : list DoctorInfo := [doctor 1 1 10 0 (2 ^ 1100)].


(** ** The tables and the views of [app.py] that keep the queue

    A table is the list of its rows; a primary key names at most one row
    of a table the database keeps.  A view takes the database and returns
    the database it commits and its reply; an exception that escapes a
    view is a reply 500 and commits nothing that was not committed
    before it. *)

Inductive app_exn : Type :=
| KeyError
| AttributeError
| Core (e : exn).

Inductive reply (A : Type) : Type :=
| Reply200 (body : A)
| Reply400 (message : string)
| Reply404 (message : string)
| Reply500 (e : app_exn).

Arguments Reply200 {A} body.
Arguments Reply400 {A} message.
Arguments Reply404 {A} message.
Arguments Reply500 {A} e.

(** A row of [Patient], all columns but [created_at]. *)
Record PatientRow : Type := {
  p_id : string;
  p_name : string;
  p_age : Z;
  p_gender : string;
  p_phone : string;
  p_email : option string;
  p_medical_history : option string
}.

(** A row of [Appointment]. *)
Record AppointmentRow : Type := {
  a_id : Z;
  a_token_number : string;
  a_patient_id : string;
  a_doctor_id : Z;
  a_department_id : Z;
  a_appointment_date : datetime;
  a_estimated_wait_time : option Z;
  a_status : string;
  a_priority_score : float;
  a_actual_wait_time : option Z;
  a_called_at : option datetime;
  a_completed_at : option datetime
}.

Record Db : Type := {
  db_patients : list PatientRow;
  db_doctors : list Doctor;
  db_appointments : list AppointmentRow
}.

(** [Appointment.query.get(id)], [Doctor.query.get(id)], [Patient.query.get(id)] *)
Definition get_appointment (db : Db) (id : Z) : option AppointmentRow :=
  find (fun a => a_id a =? id) (db_appointments db).

Definition get_doctor (db : Db) (id : Z) : option Doctor :=
  find (fun d => doc_id d =? id) (db_doctors db).

Definition get_patient_row (db : Db) (id : string) : option PatientRow :=
  find (fun p => String.eqb (p_id p) id) (db_patients db).

(** The rows of an appointment table after a change of the row [id]. *)
Definition change_appointment (id : Z) (change : AppointmentRow -> AppointmentRow)
    (rows : list AppointmentRow) : list AppointmentRow :=
  map (fun a => if a_id a =? id then change a else a) rows.

Definition change_doctor (id : Z) (change : Doctor -> Doctor) (rows : list Doctor)
  : list Doctor :=
  map (fun d => if doc_id d =? id then change d else d) rows.

Definition with_status (status : string) (a : AppointmentRow) : AppointmentRow :=
  {| a_id := a_id a; a_token_number := a_token_number a;
     a_patient_id := a_patient_id a; a_doctor_id := a_doctor_id a;
     a_department_id := a_department_id a;
     a_appointment_date := a_appointment_date a;
     a_estimated_wait_time := a_estimated_wait_time a;
     a_status := status;
     a_priority_score := a_priority_score a;
     a_actual_wait_time := a_actual_wait_time a;
     a_called_at := a_called_at a;
     a_completed_at := a_completed_at a |}.

Definition with_called_at (t : datetime) (a : AppointmentRow) : AppointmentRow :=
  {| a_id := a_id a; a_token_number := a_token_number a;
     a_patient_id := a_patient_id a; a_doctor_id := a_doctor_id a;
     a_department_id := a_department_id a;
     a_appointment_date := a_appointment_date a;
     a_estimated_wait_time := a_estimated_wait_time a;
     a_status := a_status a;
     a_priority_score := a_priority_score a;
     a_actual_wait_time := a_actual_wait_time a;
     a_called_at := Some t;
     a_completed_at := a_completed_at a |}.

Definition with_completed (t : datetime) (wait : option Z) (a : AppointmentRow)
  : AppointmentRow :=
  {| a_id := a_id a; a_token_number := a_token_number a;
     a_patient_id := a_patient_id a; a_doctor_id := a_doctor_id a;
     a_department_id := a_department_id a;
     a_appointment_date := a_appointment_date a;
     a_estimated_wait_time := a_estimated_wait_time a;
     a_status := "completed"%string;
     a_priority_score := a_priority_score a;
     a_actual_wait_time := wait;
     a_called_at := a_called_at a;
     a_completed_at := Some t |}.

(** [doctor.current_queue_count = max(0, doctor.current_queue_count - 1)] *)
Definition leave_queue (d : Doctor) : Doctor :=
  {| doc_id := doc_id d; doc_department_id := doc_department_id d;
     doc_avg_consultation_time := doc_avg_consultation_time d;
     max_patients_per_day := max_patients_per_day d;
     current_queue_count := Z.max 0 (current_queue_count d - 1);
     is_available := is_available d |}.

(** [update_appointment_status]; [status] is [data['status']], absent when
    the key is. *)
Definition update_appointment_status (db : Db) (appointment_id : Z)
    (status : option string) : Db * reply string :=
  match get_appointment db appointment_id with
  | None => (db, Reply404 "Appointment not found"%string)
  | Some appointment =>
      let old_status := a_status appointment in
      match status with
      | None => (db, Reply500 KeyError)
      | Some new_status =>
          let appointments :=
            change_appointment appointment_id (with_status new_status)
              (db_appointments db) in
          if String.eqb new_status "completed"%string
             && negb (String.eqb old_status "completed"%string)
          then
            match get_doctor db (a_doctor_id appointment) with
            | None => (db, Reply500 AttributeError)
            | Some doctor =>
                ({| db_patients := db_patients db;
                    db_doctors := change_doctor (doc_id doctor) leave_queue (db_doctors db);
                    db_appointments := appointments |},
                 Reply200 "Status updated"%string)
            end
          else
            ({| db_patients := db_patients db;
                db_doctors := db_doctors db;
                db_appointments := appointments |},
             Reply200 "Status updated"%string)
      end
  end.

(** The microseconds from the start of the calendar to [t]. *)
Definition microseconds (t : datetime) : Z :=
  (((toordinal t * 24 + dt_hour t) * 60 + dt_minute t) * 60 + dt_second t) * 1000000
  + dt_microsecond t.

Definition f60_0 : float := Eval vm_compute in of_ratio 60 1.

(** [int((called_at - appointment_date).total_seconds() / 60)] *)
Definition wait_minutes (called_at appointment_date : datetime) : result Z :=
  total_seconds <-
    int_truediv (microseconds called_at - microseconds appointment_date) 1000000 ;;
  py_int (SFdiv prec emax total_seconds f60_0).

(** [complete_appointment]; [now] is [datetime.utcnow()]. *)
Definition complete_appointment (db : Db) (now : datetime) (appointment_id : Z)
  : Db * reply (option Z) :=
  match get_appointment db appointment_id with
  | None => (db, Reply404 "Appointment not found"%string)
  | Some appointment =>
      let computed :=
        match a_called_at appointment with
        | Some called => w <- wait_minutes called (a_appointment_date appointment) ;;
                         Ok (Some w)
        | None => Ok (a_actual_wait_time appointment)
        end in
      match computed with
      | Raise e => (db, Reply500 (Core e))
      | Ok wait =>
          match get_doctor db (a_doctor_id appointment) with
          | None => (db, Reply500 AttributeError)
          | Some doctor =>
              ({| db_patients := db_patients db;
                  db_doctors := change_doctor (doc_id doctor) leave_queue (db_doctors db);
                  db_appointments :=
                    change_appointment appointment_id (with_completed now wait)
                      (db_appointments db) |},
               Reply200 wait)
          end
      end
  end.

(** [call_patient]; the reply carries the patient's name and the token. *)
Definition call_patient (db : Db) (now : datetime) (appointment_id : Z)
  : Db * reply (string * string) :=
  match get_appointment db appointment_id with
  | None => (db, Reply404 "Appointment not found"%string)
  | Some appointment =>
      let others_wait :=
        map (fun a =>
               if (a_doctor_id a =? a_doctor_id appointment)
                  && String.eqb (a_status a) "in-progress"%string
                  && negb (a_id a =? appointment_id)
               then with_status "waiting"%string a else a)
          (db_appointments db) in
      let appointments :=
        change_appointment appointment_id
          (fun a => with_called_at now (with_status "in-progress"%string a)) others_wait in
      let committed :=
        {| db_patients := db_patients db;
           db_doctors := db_doctors db;
           db_appointments := appointments |} in
      match get_patient_row db (a_patient_id appointment) with
      | None => (committed, Reply500 AttributeError)
      | Some patient =>
          (committed, Reply200 (p_name patient, a_token_number appointment))
      end
  end.

(** The JSON body of [register_patient]: a field is absent when its key is. *)
Record PatientForm : Type := {
  form_id : option string;
  form_name : option string;
  form_age : option Z;
  form_gender : option string;
  form_phone : option string;
  form_email : option string;
  form_medical_history : option string
}.

(** [data.get(key, '')] *)
Definition get_or_empty (field : option string) : string :=
  match field with Some s => s | None => EmptyString end.

Definition register_patient (db : Db) (data : PatientForm) : Db * reply PatientRow :=
  match form_id data with
  | None => (db, Reply500 KeyError)
  | Some id =>
      match get_patient_row db id with
      | Some _ => (db, Reply400 "Patient ID already exists"%string)
      | None =>
          match form_name data, form_age data, form_gender data, form_phone data with
          | Some name, Some years, Some gender, Some phone =>
              let patient :=
                {| p_id := id; p_name := name; p_age := years; p_gender := gender;
                   p_phone := phone;
                   p_email := Some (get_or_empty (form_email data));
                   p_medical_history := Some (get_or_empty (form_medical_history data)) |} in
              ({| db_patients := db_patients db ++ [patient];
                  db_doctors := db_doctors db;
                  db_appointments := db_appointments db |},
               Reply200 patient)
          | _, _, _, _ => (db, Reply500 KeyError)
          end
      end
  end.

Definition get_patient (db : Db) (patient_id : string) : reply PatientRow :=
  match get_patient_row db patient_id with
  | Some patient => Reply200 patient
  | None => Reply404 "Patient not found"%string
  end.


(** No queue count of the doctor table is negative. *)
Definition queues_not_negative (db : Db) : Prop :=
  forall d, In d (db_doctors db) -> 0 <= current_queue_count d.

Definition toy_appointment_row (id doctor : Z) (status : string) : AppointmentRow :=
  {| a_id := id; a_token_number := "GEN-20261109-0001"%string;
     a_patient_id := "P1"%string; a_doctor_id := doctor; a_department_id := 1;
     a_appointment_date := monday_9am; a_estimated_wait_time := Some 11;
     a_status := status; a_priority_score := f0_5;
     a_actual_wait_time := None; a_called_at := None; a_completed_at := None |}.

Definition toy_patient_row : PatientRow :=
  {| p_id := "P1"%string; p_name := "Ada"%string; p_age := 40;
     p_gender := "F"%string; p_phone := "555"%string;
     p_email := Some EmptyString; p_medical_history := Some EmptyString |}.

Definition toy_db : Db :=
  {| db_patients := [toy_patient_row];
     db_doctors := clinic;
     db_appointments :=
       [toy_appointment_row 1 3 "in-progress"%string;
        toy_appointment_row 2 3 "waiting"%string;
        toy_appointment_row 3 2 "in-progress"%string] |}.

Definition toy_form : PatientForm :=
  {| form_id := Some "P2"%string; form_name := Some "Bea"%string;
     form_age := Some 7; form_gender := Some "F"%string;
     form_phone := Some "556"%string; form_email := None;
     form_medical_history := Some "asthma"%string |}.



(** An appointment of Monday 9:00 that was called at 9:47:30. *)
Definition monday_9_47 : datetime :=
  {| toordinal := 739929; dt_hour := 9; dt_minute := 47; dt_second := 30;
     dt_microsecond := 0 |}.

Definition called_row : AppointmentRow :=
  with_called_at monday_9_47 (toy_appointment_row 1 3 "in-progress"%string).

Definition called_db : Db :=
  {| db_patients := [toy_patient_row];
     db_doctors := clinic;
     db_appointments := [called_row] |}.


(** A doctor with two patients in the queue, one of them with the doctor. *)
Definition busy_doctor (queue : Z) : Doctor :=
  {| doc_id := 4; doc_department_id := 1; doc_avg_consultation_time := 12;
     max_patients_per_day := 40; current_queue_count := queue; is_available := true |}.

Definition busy_db : Db :=
  {| db_patients := [toy_patient_row];
     db_doctors := [busy_doctor 2];
     db_appointments :=
       [toy_appointment_row 7 4 "in-progress"%string;
        toy_appointment_row 8 4 "waiting"%string] |}.



(** ** The clock

    [assign_doctor] takes no time argument: it reads [datetime.now()]
    itself, twice, before its loop.  The clock is the sequence of the
    readings to come. *)
Definition Clock : Type := nat -> datetime.

(** [datetime.now()] *)
Definition now (clock : Clock) : datetime * Clock :=
  (clock 0%nat, fun n => clock (S n)).

(** A call [assign_doctor(doctor_features, patient)] under a clock. *)
Definition assign_doctor_now {L : Libs} (self : QueueMLModel) (clock : Clock)
    (doctor_features : list DoctorInfo) (patient : Patient)
  : result (option Z * Z) * Clock :=
  let '(t1, clock) := now clock in
  let '(t2, clock) := now clock in
  (assign_doctor self t1 t2 doctor_features patient, clock).

(** ** The claims on the score and on the wait, in their own words *)

(** The truncation toward zero of a finite float: the floor of a float that
    is not negative, the opposite of the floor of the opposite of a
    negative one. *)
Definition truncate (x : float) : option Z :=
  match x with
  | S754_finite true m e => option_map Z.opp (floor (S754_finite false m e))
  | _ => floor x
  end.

(** The keyword set of the claim. *)
Definition claimed_keywords : list string :=
  ["heart"; "chest pain"; "breathing"; "diabetic"; "emergency"; "severe"; "acute";
   "critical"]%string.

(** Two characters are the same letter, case ignored: the same character,
    or an upper-case ASCII letter and its lower-case form, 32 code points
    above it. *)
Definition same_letter (a b : ascii) : bool :=
  let x := nat_of_ascii a in
  let y := nat_of_ascii b in
  ((x =? y) || ((65 <=? x) && (x <=? 90) && (y =? x + 32))
   || ((65 <=? y) && (y <=? 90) && (x =? y + 32)))%nat.

(** [k] is at the start of [s], case ignored. *)
Fixpoint starts_ignoring_case (k s : string) : bool :=
  match k, s with
  | EmptyString, _ => true
  | String _ _, EmptyString => false
  | String a k', String b s' => same_letter a b && starts_ignoring_case k' s'
  end.

(** [k] occurs in [s] as a substring, case ignored. *)
Fixpoint occurs_ignoring_case (k s : string) : bool :=
  starts_ignoring_case k s ||
  match s with
  | EmptyString => false
  | String _ s' => occurs_ignoring_case k s'
  end.

Definition keyword_occurs (history : option string) : bool :=
  match history with
  | None => false
  | Some h => existsb (fun keyword => occurs_ignoring_case keyword h) claimed_keywords
  end.

(** Base 0.5; 0.2 more above 65 years, or else 0.15 more below 5; 0.1 more,
    once, when a keyword occurs; at most 1.0. *)
Definition score_as_claimed (patient : Patient) : float :=
  let score := f0_5 in
  let score :=
    if 65 <? age patient then add score f0_2
    else if age patient <? 5 then add score f0_15
    else score in
  let score := if keyword_occurs (medical_history patient) then add score f0_1 else score in
  if ltb f1_0 score then f1_0 else score.

(** The feature row and the target of a completed appointment: queue
    length, average consultation time, hour, day of week and doctor
    efficiency, and the wait that was observed. *)
Definition row_of_sample (apt : CompletedAppointment) (row : Features) : Prop :=
  f_queue_length row = queue_length apt /\
  f_avg_consultation row = apt_avg_consultation_time apt /\
  f_hour row = hour_of_day apt /\
  f_day row = day_of_week apt /\
  f_efficiency row = doctor_efficiency apt.

Definition target_of_sample (apt : CompletedAppointment) (y : num) : Prop :=
  y = Int (actual_wait_time apt).

(** ** More instances of the libraries

    An instance with a given regressor, whose scaler is the identity and
    refuses, as scikit-learn's does, a row that holds a NaN. *)
Definition libs_of (regressor : Features -> result float) : Libs :=
  {| ScalerHyper := unit;
     ScalerParams := unit;
     ForestHyper := unit;
     ForestParams := unit;
     Scaled := Features;
     scaler_fit := fun _ X =>
       if existsb (fun x => is_nan (f_efficiency x)) X then Raise ValueError else Ok tt;
     scaler_transform := fun _ x => Ok x;
     forest_fit := fun _ _ _ => Ok tt;
     forest_predict := fun _ x => regressor x;
     standard_scaler := tt;
     random_forest := tt;
     synthetic_X := [];
     synthetic_y := [] |}.

(** A regressor that learnt negative waits: it predicts -19.5 minutes. *)
Definition early_libs : Libs := libs_of (fun _ => Ok (of_ratio (-39) 2)).

Definition early_model : @QueueMLModel early_libs :=
  @Build_QueueMLModel early_libs toy_fitted toy_fitted true.

(** A regressor whose wait grows with the hour and the day of the week. *)
Definition hourly_libs : Libs :=
  libs_of (fun x =>
             Ok (of_ratio (f_queue_length x * f_hour x + f_avg_consultation x * f_day x) 1)).

Definition hourly_model : @QueueMLModel hourly_libs :=
  @Build_QueueMLModel hourly_libs toy_fitted toy_fitted true.

(** A short queue of long consultations and a long queue of short ones. *)
Definition long_and_short : list DoctorInfo :=
  [doctor 1 3 10 5 20; doctor 2 1 30 5 20].

Definition thursday_9am : datetime :=
  {| toordinal := 739932; dt_hour := 9; dt_minute := 0; dt_second := 0;
     dt_microsecond := 0 |}.

Definition monday_5pm : datetime :=
  {| toordinal := 739929; dt_hour := 17; dt_minute := 0; dt_second := 0;
     dt_microsecond := 0 |}.

(** The last instant of a Sunday and the first of the Monday after it. *)
Definition sunday_last : datetime :=
  {| toordinal := 739928; dt_hour := 23; dt_minute := 59; dt_second := 59;
     dt_microsecond := 999999 |}.

Definition monday_first : datetime :=
  {| toordinal := 739929; dt_hour := 0; dt_minute := 0; dt_second := 0;
     dt_microsecond := 0 |}.

(** A clock that stands still, and one that ticks once. *)
Definition clock_at (t : datetime) : Clock := fun _ => t.

Definition clock_from (t t' : datetime) : Clock :=
  fun n => match n with O => t | S _ => t' end.

(** Pickle files that hold estimators nobody fitted. *)
Definition toy_world_unfitted : @World toy_libs :=
  @Build_World toy_libs (Pickled {| hyper := tt; fitted := None |})
    (Pickled {| hyper := tt; fitted := None |}) [].

(** A batch of 50 samples whose efficiency is not a number. *)
Definition nan_appointment : CompletedAppointment :=
  {| queue_length := 3; apt_avg_consultation_time := 15; hour_of_day := 10;
     day_of_week := 2; doctor_efficiency := S754_nan; actual_wait_time := 40 |}.

Definition strict_libs : Libs := libs_of toy_predict.

Definition strict_model : @QueueMLModel strict_libs :=
  @Build_QueueMLModel strict_libs toy_fitted toy_fitted true.

Definition strict_world : @World strict_libs :=
  @Build_World strict_libs Absent Absent [].

(** The unavailable doctors of [toy_doctors], as candidates. *)
Definition unavailable_candidates : list DoctorInfo :=
  doctor_features_of (fun _ => 0) (filter (fun doc => negb (is_available doc)) toy_doctors).


(** The object the constructor makes of [toy_world_unfitted]. *)
Definition toy_loaded_unfitted : @QueueMLModel toy_libs :=
  @Build_QueueMLModel toy_libs {| hyper := tt; fitted := None |}
    {| hyper := tt; fitted := None |} true.

(** The world the constructor leaves from [strict_world], and the object
    [update_model] leaves of [strict_model] when the scaler refuses the
    batch. *)
Definition strict_world_trained : @World strict_libs :=
  @Build_World strict_libs (Pickled toy_fitted) (Pickled toy_fitted)
    ["Training initial model with synthetic data...";
     "Initial model trained and saved"]%string.

Definition strict_model_reset : @QueueMLModel strict_libs :=
  @Build_QueueMLModel strict_libs toy_fitted {| hyper := tt; fitted := None |} true.


(** The row, the target and the estimators of the batches of [batch_of]. *)
Definition toy_row : Features :=
  {| f_queue_length := 3; f_avg_consultation := 15; f_hour := 10; f_day := 2;
     f_efficiency := f1_0 |}.

Definition toy_retrained : @QueueMLModel toy_libs :=
  @Build_QueueMLModel toy_libs toy_fitted toy_fitted false.

(** * Proofs *)

(** ** The literals and the arithmetic of the source, evaluated

    Mantissa and exponent are those of CPython's floats
    ([float.hex], [math.frexp]). *)

Example literals :
  f0_1 = S754_finite false 7205759403792794 (-56) /\
  f0_15 = S754_finite false 5404319552844595 (-55) /\
  f0_2 = S754_finite false 7205759403792794 (-55) /\
  f0_3 = S754_finite false 5404319552844595 (-54) /\
  f0_5 = S754_finite false 4503599627370496 (-53) /\
  f0_8 = S754_finite false 7205759403792794 (-53) /\
  f1_0 = S754_finite false 4503599627370496 (-52) /\
  f1_3 = S754_finite false 5854679515581645 (-52).
Proof. repeat split. Qed.

(** 0.5 + 0.2 + 0.1 is 0.7999999999999999, and 17 / 20 is 0.85. *)
Example sums_and_quotients :
  add (add f0_5 f0_2) f0_1 = S754_finite false 7205759403792793 (-53) /\
  add (add f0_5 f0_15) f0_1 = f0_75 /\
  of_ratio 16 20 = f0_8 /\
  of_ratio 17 20 = S754_finite false 7656119366529843 (-53) /\
  py_int (S754_finite false 5342395057968251 (-48)) = Ok 18 /\
  py_int (S754_finite true 4503599627370496 (-53)) = Ok 0 /\
  floor (S754_finite true 4503599627370496 (-53)) = Some (-1).
Proof. repeat split. Qed.

(** ** The order of floats *)

Module FloatOrder.

Ltac case_compare :=
  repeat match goal with
    | |- context [Z.compare ?x ?y] => destruct (Z.compare_spec x y)
    | |- context [Pos.compare_cont Eq ?x ?y] =>
        change (Pos.compare_cont Eq x y) with (Pos.compare x y);
        destruct (Pos.compare_spec x y)
    end.

Ltac by_cases :=
  unfold ltb, SFltb, SFcompare;
  repeat match goal with
    | x : float |- _ => destruct x as [[]|[]| |[] ? ?]
    end;
  simpl; try congruence;
  case_compare; simpl; intros; subst; try congruence; try lia.

Lemma ltb_irrefl (x : float) : ltb x x = false.
Proof.
  by_cases; rewrite ?Z.compare_refl, ?Pos.compare_cont_refl; reflexivity.
Qed.

Lemma ltb_trans (x y z : float) :
  ltb x y = true -> ltb y z = true -> ltb x z = true.
Proof. by_cases. Qed.

Lemma ltb_asym (x y : float) : ltb x y = true -> ltb y x = false.
Proof. by_cases. Qed.

(** [x < m] and [m <= a] give [x < a]. *)
Lemma ltb_below (x m a : float) :
  ltb x m = true -> ltb a m = false -> is_nan a = false -> ltb x a = true.
Proof. by_cases. Qed.

(** [x < m] and not [a < m] exclude [a < x]. *)
Lemma ltb_not_below (x m a : float) :
  ltb x m = true -> ltb a m = false -> ltb a x = false.
Proof.
  intros Hx Ha. destruct (ltb a x) eqn:E; [|reflexivity].
  rewrite (ltb_trans _ _ _ E Hx) in Ha. discriminate.
Qed.

Lemma finite_lt_inf (x : float) : is_finite x = true -> ltb x inf = true.
Proof. destruct x as [[]|[]| |[] ? ?]; intros H; try reflexivity; discriminate H. Qed.

Lemma finite_not_nan (x : float) : is_finite x = true -> is_nan x = false.
Proof. destruct x; simpl; congruence. Qed.

End FloatOrder.

(** ** Built-ins *)

Lemma bind_ok {A B : Type} (r : result A) (k : A -> result B) (b : B) :
  bind r k = Ok b -> exists a, r = Ok a /\ k a = Ok b.
Proof. destruct r as [a|e]; simpl; [eauto|discriminate]. Qed.

(** ** The loop of assign_doctor *)

Section Selection.

Context {L : Libs}.

Variable self : QueueMLModel.
Variables current_hour current_day : Z.

Local Abbreviation step := (assign_step self current_hour current_day).
Local Abbreviation wait_of := (adjusted_wait self current_hour current_day).

(** An iteration compares the adjusted wait of its candidate with the
    running minimum. *)
Lemma assign_step_adjusted (acc : option Z * float) (doc_info : DoctorInfo) :
  step acc doc_info =
  (w <- wait_of doc_info ;;
   Ok (if ltb w (snd acc) then (Some (doctor_id doc_info), w) else acc)).
Proof.
  destruct acc as [best mn].
  unfold assign_step, adjusted_wait, raw_prediction, penalised.
  destruct (load_ratio _ _) as [ratio|]; simpl; [|reflexivity].
  destruct (transform _ _) as [scaled|]; simpl; [|reflexivity].
  destruct (predict _ _) as [raw|]; simpl; [|reflexivity].
  destruct (ltb _ mn); reflexivity.
Qed.

(** The loop leaves the accumulator alone when no candidate is below it,
    and otherwise ends on the first candidate of least adjusted wait. *)
Lemma loop_first_minimum (cands : list DoctorInfo) :
  forall acc : option Z * float,
    (forall doc, In doc cands -> exists w, wait_of doc = Ok w /\ is_nan w = false) ->
    (for_each step cands acc = Ok acc /\
     forall doc w, In doc cands -> wait_of doc = Ok w -> ltb w (snd acc) = false)
    \/
    (exists i doc m,
        nth_error cands i = Some doc /\
        wait_of doc = Ok m /\
        for_each step cands acc = Ok (Some (doctor_id doc), m) /\
        ltb m (snd acc) = true /\
        (forall j doc' w', nth_error cands j = Some doc' -> wait_of doc' = Ok w' ->
                           ltb w' m = false) /\
        (forall j doc' w', (j < i)%nat -> nth_error cands j = Some doc' ->
                           wait_of doc' = Ok w' -> ltb m w' = true)).
Proof.
  induction cands as [|d rest IH]; intros acc Hgood.
  - left. split; [reflexivity|]. intros doc w [].
  - destruct (Hgood d (or_introl eq_refl)) as (w & Hw & Hnan).
    assert (Hrest : forall doc, In doc rest ->
                                exists w, wait_of doc = Ok w /\ is_nan w = false)
      by (intros doc Hin; apply Hgood; right; exact Hin).
    cbn [for_each]. rewrite assign_step_adjusted, Hw. cbn [bind].
    destruct (ltb w (snd acc)) eqn:Hlt.
    + destruct (IH (Some (doctor_id d), w) Hrest)
        as [[Hrun Hnone] | (i & doc & m & Hi & Hm & Hrun & Hbelow & Hmin & Hfirst)].
      * right. exists 0%nat, d, w. repeat split; try assumption.
        -- intros [|j] doc' w' Hj Hw'; cbn in Hj.
           ++ injection Hj as <-. rewrite Hw in Hw'. injection Hw' as <-.
              apply FloatOrder.ltb_irrefl.
           ++ apply (Hnone doc' w'); [eapply nth_error_In; eassumption|assumption].
        -- intros j doc' w' Hj. lia.
      * right. exists (S i), doc, m. cbn [snd] in Hbelow. repeat split; try assumption.
        -- eapply FloatOrder.ltb_trans; eassumption.
        -- intros [|j] doc' w' Hj Hw'; cbn in Hj.
           ++ injection Hj as <-. rewrite Hw in Hw'. injection Hw' as <-.
              apply FloatOrder.ltb_asym; assumption.
           ++ eapply Hmin; eassumption.
        -- intros [|j] doc' w' Hlt' Hj Hw'; cbn in Hj.
           ++ injection Hj as <-. rewrite Hw in Hw'. injection Hw' as <-. assumption.
           ++ apply (Hfirst j doc' w'); [lia|assumption|assumption].
    + destruct (IH acc Hrest)
        as [[Hrun Hnone] | (i & doc & m & Hi & Hm & Hrun & Hbelow & Hmin & Hfirst)].
      * left. split; [assumption|].
        intros doc w' [<-|Hin] Hw'.
        -- rewrite Hw in Hw'. injection Hw' as <-. assumption.
        -- eapply Hnone; eassumption.
      * right. exists (S i), doc, m. repeat split; try assumption.
        -- intros [|j] doc' w' Hj Hw'; cbn in Hj.
           ++ injection Hj as <-. rewrite Hw in Hw'. injection Hw' as <-.
              eapply FloatOrder.ltb_not_below; eassumption.
           ++ eapply Hmin; eassumption.
        -- intros [|j] doc' w' Hlt' Hj Hw'; cbn in Hj.
           ++ injection Hj as <-. rewrite Hw in Hw'. injection Hw' as <-.
              eapply FloatOrder.ltb_below; eassumption.
           ++ apply (Hfirst j doc' w'); [lia|assumption|assumption].
Qed.

End Selection.

(** ** assign_doctor *)

(** [int()] truncates toward zero. *)
Lemma py_int_truncate (x : float) :
  is_finite x = true -> exists n, py_int x = Ok n /\ truncate x = Some n.
Proof.
  destruct x as [s|s| |s m e]; cbn [is_finite py_int truncate floor];
    try discriminate; intros _.
  - exists 0. destruct s; split; reflexivity.
  - eexists. split; [reflexivity|].
    assert (Hpow : 0 < 2 ^ (- e) \/ 0 <= e).
    { destruct (Z.leb_spec 0 e); [right; assumption|left].
      apply Z.pow_pos_nonneg; lia. }
    destruct s; cbn [option_map]; f_equal.
    + destruct (0 <=? e) eqn:He.
      * rewrite <- (Pos2Z.opp_pos m). rewrite Z.mul_opp_l. reflexivity.
      * apply Z.leb_gt in He. destruct Hpow as [Hpow|]; [|lia].
        rewrite <- (Pos2Z.opp_pos m).
        rewrite Z.quot_opp_l by lia.
        rewrite Z.quot_div_nonneg by lia. reflexivity.
    + destruct (0 <=? e) eqn:He; [reflexivity|].
      apply Z.leb_gt in He. destruct Hpow as [Hpow|]; [|lia].
      rewrite Z.quot_div_nonneg by lia. reflexivity.
Qed.

(** The truncation is the floor of a float that is not negative. *)
Lemma truncate_floor (x : float) :
  ltb x f0_0 = false -> truncate x = floor x.
Proof.
  destruct x as [s|s| |[|] m e]; try reflexivity. discriminate.
Qed.

(** C1, as the code has it.  The minimum is not floored: [int()] truncates
    it toward zero, and a regressor that predicts -19.5 minutes has
    [assign_doctor] return -19, where the floor is -20.  And a list that is
    not empty has no result when no adjusted wait can be computed. *)
Lemma assign_doctor_truncates_toward_zero :
  adjusted_wait (L := early_libs) early_model 9 0 (doctor 1 3 10 5 20) =
    Ok (of_ratio (-39) 2) /\
  floor (of_ratio (-39) 2) = Some (-20) /\
  assign_doctor (L := early_libs) early_model monday_9am monday_9am
    [doctor 1 3 10 5 20] toy_patient = Ok (Some 1, -19) /\
  assign_doctor (L := early_libs) early_model monday_9am monday_9am
    [overflowing] toy_patient = Raise OverflowError /\
  ~ (forall (L : Libs) (self : QueueMLModel) t1 t2 cands patient,
        cands <> [] ->
        exists doc m wait,
          In doc cands /\
          adjusted_wait self (dt_hour t1) (weekday t2) doc = Ok m /\
          assign_doctor self t1 t2 cands patient = Ok (Some (doctor_id doc), wait) /\
          floor m = Some wait).
Proof.
  split; [reflexivity|]. split; [reflexivity|]. split; [reflexivity|].
  split; [reflexivity|].
  intros H.
  destruct (H early_libs early_model monday_9am monday_9am [doctor 1 3 10 5 20]
              toy_patient ltac:(discriminate))
    as (doc & m & wait & [<-|[]] & Hm & Hrun & Hfloor).
  assert (Hm' : m = of_ratio (-39) 2).
  { assert (E : adjusted_wait (L := early_libs) early_model
                  (dt_hour monday_9am) (weekday monday_9am) (doctor 1 3 10 5 20) =
                Ok (of_ratio (-39) 2)) by reflexivity.
    rewrite E in Hm. injection Hm as <-. reflexivity. }
  assert (Hwait : wait = -19).
  { assert (E : assign_doctor (L := early_libs) early_model monday_9am monday_9am
                  [doctor 1 3 10 5 20] toy_patient = Ok (Some 1, -19)) by reflexivity.
    rewrite E in Hrun. injection Hrun as <-. reflexivity. }
  subst m wait. vm_compute in Hfloor. discriminate Hfloor.
Qed.

(** C1, amended.  On a non-empty candidate list whose adjusted waits are
    finite, [assign_doctor] returns the id of a candidate of the list: the
    one of least adjusted wait, the first of them in list order (no
    candidate is below it, every earlier one is strictly above it),
    together with that wait truncated toward zero, which is its floor when
    the wait is not negative. *)
Theorem assign_doctor_first_minimum_truncated {L : Libs} (self : QueueMLModel)
    (t1 t2 : datetime) (cands : list DoctorInfo) (patient : Patient) :
  cands <> [] ->
  (forall doc, In doc cands ->
     exists w, adjusted_wait self (dt_hour t1) (weekday t2) doc = Ok w /\
               is_finite w = true) ->
  exists i doc m wait,
    nth_error cands i = Some doc /\
    adjusted_wait self (dt_hour t1) (weekday t2) doc = Ok m /\
    assign_doctor self t1 t2 cands patient = Ok (Some (doctor_id doc), wait) /\
    truncate m = Some wait /\
    (ltb m f0_0 = false -> floor m = Some wait) /\
    (forall j doc' w',
        nth_error cands j = Some doc' ->
        adjusted_wait self (dt_hour t1) (weekday t2) doc' = Ok w' ->
        ltb w' m = false) /\
    (forall j doc' w',
        (j < i)%nat -> nth_error cands j = Some doc' ->
        adjusted_wait self (dt_hour t1) (weekday t2) doc' = Ok w' ->
        ltb m w' = true).
Proof.
  intros Hne Hgood.
  destruct (loop_first_minimum self (dt_hour t1) (weekday t2) cands (None, inf))
    as [[_ Hnone] | (i & doc & m & Hi & Hm & Hrun & _ & Hmin & Hfirst)].
  - intros doc Hin. destruct (Hgood doc Hin) as (w & Hw & Hfin).
    exists w. split; [assumption|]. apply FloatOrder.finite_not_nan; assumption.
  - destruct cands as [|d rest]; [congruence|].
    destruct (Hgood d (or_introl eq_refl)) as (w & Hw & Hfin).
    specialize (Hnone d w (or_introl eq_refl) Hw). cbn [snd] in Hnone.
    rewrite (FloatOrder.finite_lt_inf w Hfin) in Hnone. discriminate.
  - destruct (Hgood doc (nth_error_In _ _ Hi)) as (w & Hw & Hfin).
    rewrite Hm in Hw. injection Hw as <-.
    destruct (py_int_truncate m Hfin) as (n & Hint & Htrunc).
    exists i, doc, m, n. split; [assumption|]. split; [assumption|].
    split; [unfold assign_doctor; rewrite Hrun; cbn [bind]; rewrite Hint; reflexivity|].
    split; [assumption|].
    split; [intros Hpos; rewrite <- (truncate_floor m Hpos); assumption|].
    split; assumption.
Qed.

Lemma assign_doctor_first_minimum_truncated_witness :
  exists i doc m wait,
    nth_error two_candidates i = Some doc /\
    adjusted_wait (L := early_libs) early_model 9 0 doc = Ok m /\
    assign_doctor (L := early_libs) early_model monday_9am monday_9am two_candidates
      (patient_of 40 "") = Ok (Some (doctor_id doc), wait) /\
    truncate m = Some wait /\
    (ltb m f0_0 = false -> floor m = Some wait) /\
    (forall j doc' w',
        nth_error two_candidates j = Some doc' ->
        adjusted_wait (L := early_libs) early_model 9 0 doc' = Ok w' ->
        ltb w' m = false) /\
    (forall j doc' w',
        (j < i)%nat -> nth_error two_candidates j = Some doc' ->
        adjusted_wait (L := early_libs) early_model 9 0 doc' = Ok w' ->
        ltb m w' = true).
Proof.
  apply (assign_doctor_first_minimum_truncated (L := early_libs) early_model
           monday_9am monday_9am two_candidates (patient_of 40 "")).
  - discriminate.
  - intros doc [<-|[<-|[]]]; eexists; (split; [reflexivity|reflexivity]).
Defined.

(** The run of the witness: the second doctor is overloaded, its wait is
    penalised and still the least. *)
Example assign_doctor_run :
  assign_doctor (L := toy_libs) toy_model monday_9am monday_9am two_candidates
    (patient_of 40 "") = Ok (Some 2, 18).
Proof. vm_compute. reflexivity. Qed.



(** Two candidates whose loads straddle 0.8: the one at 16/20 is compared
    through its raw wait, the one at 17/20 through 1.3 times its raw wait. *)
Example overload_penalty_straddle :
  (exists raw, raw_prediction (L := toy_libs) toy_model 9 0 at_threshold =
                 Ok (f0_8, raw) /\
               adjusted_wait (L := toy_libs) toy_model 9 0 at_threshold = Ok raw) /\
  (exists ratio raw, raw_prediction (L := toy_libs) toy_model 9 0 above_threshold =
                       Ok (ratio, raw) /\
                     adjusted_wait (L := toy_libs) toy_model 9 0 above_threshold =
                       Ok (mul raw f1_3)).
Proof.
  split.
  - eexists. split; vm_compute; reflexivity.
  - eexists. eexists. split; vm_compute; reflexivity.
Qed.

(** ** Rounding: bounds of the quotient, the product and the difference *)

Module Rounding.

Lemma digits2_pos_bounds (m : positive) :
  2 ^ (Zpos (digits2_pos m) - 1) <= Zpos m < 2 ^ Zpos (digits2_pos m).
Proof.
  induction m as [m IH|m IH|]; cbn [digits2_pos].
  - rewrite Pos2Z.inj_succ.
    replace (Z.succ (Zpos (digits2_pos m)) - 1)
      with (Z.succ (Zpos (digits2_pos m) - 1)) by lia.
    rewrite !Z.pow_succ_r by lia. lia.
  - rewrite Pos2Z.inj_succ.
    replace (Z.succ (Zpos (digits2_pos m)) - 1)
      with (Z.succ (Zpos (digits2_pos m) - 1)) by lia.
    rewrite !Z.pow_succ_r by lia. lia.
  - cbn. lia.
Qed.

Lemma digits2_pos_unique (m : positive) (d : Z) :
  2 ^ (d - 1) <= Zpos m < 2 ^ d -> Zpos (digits2_pos m) = d.
Proof.
  intros [Hlo Hhi]. pose proof (digits2_pos_bounds m) as [Hlo' Hhi'].
  assert (0 < d)
    by (destruct d; [cbn in Hhi; lia|lia|rewrite Z.pow_neg_r in Hhi; lia]).
  destruct (Z.lt_trichotomy (Zpos (digits2_pos m)) d) as [Hlt|[Heq|Hgt]]; [|assumption|].
  - assert (2 ^ Zpos (digits2_pos m) <= 2 ^ (d - 1)) by (apply Z.pow_le_mono_r; lia). lia.
  - assert (2 ^ d <= 2 ^ (Zpos (digits2_pos m) - 1)) by (apply Z.pow_le_mono_r; lia). lia.
Qed.

Lemma shr_1_spec (r : shr_record) :
  0 <= shr_m r ->
  0 <= shr_m (shr_1 r) /\
  shr_m r = 2 * shr_m (shr_1 r) + (if shr_r (shr_1 r) then 1 else 0) /\
  shr_s (shr_1 r) = shr_r r || shr_s r.
Proof.
  destruct r as [m rb sb]. cbn [shr_m]. intros Hm.
  destruct m as [|[p|p|]|p]; cbn; try lia; repeat split; lia.
Qed.

Lemma iter_pos_shr_1 (P : Z -> shr_record -> Prop) :
  (forall j r, 0 < j -> P j r -> P (j - 1) (shr_1 r)) ->
  forall p j r, Zpos p <= j -> P j r -> P (j - Zpos p) (iter_pos shr_1 p r).
Proof.
  intros Hstep. induction p as [p IH|p IH|]; intros j r Hj HP; cbn [iter_pos].
  - replace (j - Zpos p~1) with (j - 1 - Zpos p - Zpos p) by lia.
    apply IH; [lia|]. apply IH; [lia|]. apply Hstep; [lia|assumption].
  - replace (j - Zpos p~0) with (j - Zpos p - Zpos p) by lia.
    apply IH; [lia|]. apply IH; [lia|assumption].
  - apply Hstep; [lia|assumption].
Qed.

Lemma fexp_eq (x : Z) : fexp prec emax x = Z.max (x - 53) (-1074).
Proof. reflexivity. Qed.

Lemma pow2_step (j : Z) : 0 < j -> 2 ^ j = 2 * 2 ^ (j - 1).
Proof. intros Hj. rewrite <- Z.pow_succ_r by lia. f_equal. lia. Qed.

Lemma shr_1_at_most (j : Z) (r : shr_record) :
  0 < j -> at_most (2 ^ j) r -> at_most (2 ^ (j - 1)) (shr_1 r).
Proof.
  intros Hj (Hpos & Hle & Hexact). rewrite (pow2_step j Hj) in Hle, Hexact.
  destruct (shr_1_spec r Hpos) as (Hpos' & Hm & Hs).
  repeat split; try assumption.
  - destruct (shr_r (shr_1 r)); lia.
  - destruct (shr_r (shr_1 r)); [lia|reflexivity].
  - rewrite Hs. destruct (shr_r (shr_1 r)); [lia|].
    destruct Hexact as [-> ->]; [lia|reflexivity].
Qed.

Lemma shr_m_of_loc (m : Z) (l : location) : shr_m (shr_record_of_loc m l) = m.
Proof. destruct l as [|[]]; reflexivity. Qed.

Lemma Zdigits2_le (m K : Z) : 0 <= m <= 2 ^ K -> 0 <= K -> Zdigits2 m <= K + 1.
Proof.
  intros [Hpos Hle] HK. destruct m as [|p|p]; cbn [Zdigits2]; [lia| |lia].
  pose proof (digits2_pos_bounds p) as [Hlo _].
  destruct (Z.le_gt_cases (Zpos (digits2_pos p)) (K + 1)) as [|Hgt]; [assumption|].
  assert (2 ^ (K + 1) <= 2 ^ (Zpos (digits2_pos p) - 1)) by (apply Z.pow_le_mono_r; lia).
  rewrite (pow2_step (K + 1)) in H by lia. replace (K + 1 - 1) with K in H by lia.
  assert (0 < 2 ^ K) by (apply Z.pow_pos_nonneg; lia). lia.
Qed.

Lemma shr_fexp_at_most (m e : Z) (l : location) (K : Z) :
  at_most (2 ^ K) (shr_record_of_loc m l) -> 0 <= K -> -1074 <= K + e - 52 ->
  e <= K + e - 52 ->
  exists K', 0 <= K' /\ K' + snd (shr_fexp prec emax m e l) = K + e /\
             snd (shr_fexp prec emax m e l) <= K + e - 52 /\
             at_most (2 ^ K') (fst (shr_fexp prec emax m e l)).
Proof.
  intros Hat HK Hk He. unfold shr_fexp, shr. rewrite fexp_eq.
  assert (Hd : Zdigits2 m <= K + 1).
  { destruct Hat as (Hpos & Hle & _). rewrite shr_m_of_loc in Hpos, Hle.
    apply Zdigits2_le; [split|]; assumption. }
  destruct (Z.max (Zdigits2 m + e - 53) (-1074) - e) as [|p|p] eqn:En.
  - exists K. cbn [fst snd]. split; [lia|split; [lia|split; [lia|assumption]]].
  - exists (K - Zpos p). cbn [fst snd]. split; [lia|]. split; [lia|]. split; [lia|].
    apply (iter_pos_shr_1 (fun j r => at_most (2 ^ j) r)); [|lia|assumption].
    intros j r Hj. apply shr_1_at_most; assumption.
  - exists K. cbn [fst snd]. split; [lia|split; [lia|split; [lia|assumption]]].
Qed.

Lemma round_at_most (B : Z) (r : shr_record) :
  at_most B r ->
  at_most B (shr_record_of_loc
               (round_nearest_even (shr_m r) (loc_of_shr_record r)) loc_Exact).
Proof.
  intros (Hpos & Hle & Hexact). destruct r as [m rb sb]. cbn [shr_m shr_r shr_s] in *.
  unfold at_most. cbn [shr_record_of_loc shr_m shr_r shr_s].
  assert (Hcase : rb = false /\ sb = false \/ m < B).
  { destruct (Z.eq_dec m B) as [E|E]; [left; auto|right; lia]. }
  destruct rb, sb; cbn; try destruct (Z.even m);
    repeat split; try lia; destruct Hcase as [[? ?]|?]; congruence || lia.
Qed.

(** Rounding a non-negative value that is at most [2^k] gives zero or a
    positive float that is at most [2^k]. *)
Lemma binary_round_aux_below (mx ex : Z) (lx : location) (K : Z) :
  at_most (2 ^ K) (shr_record_of_loc mx lx) -> 52 <= K -> -1022 <= K + ex <= 971 ->
  below_pow2 (K + ex) (binary_round_aux prec emax false mx ex lx).
Proof.
  intros Hat HK Hk. unfold binary_round_aux.
  destruct (shr_fexp_at_most mx ex lx K Hat ltac:(lia) ltac:(lia) ltac:(lia))
    as (K1 & HK1 & He1 & Hexp1 & Hat1).
  destruct (shr_fexp prec emax mx ex lx) as [mrs1 e1]. cbn [fst snd] in *.
  apply round_at_most in Hat1.
  destruct (shr_fexp_at_most _ e1 loc_Exact K1 Hat1 HK1 ltac:(lia) ltac:(lia))
    as (K2 & HK2 & He2 & Hexp2 & Hat2).
  destruct (shr_fexp prec emax _ e1 loc_Exact) as [mrs2 e2]. cbn [fst snd] in *.
  destruct Hat2 as (Hpos & Hle & _).
  destruct (shr_m mrs2) as [|m|m]; [exact I| |lia].
  assert (He : e2 <= K + ex - 52) by lia.
  replace (e2 <=? emax - prec) with true
    by (symmetry; apply Z.leb_le; unfold emax, prec; lia).
  cbn. split; [assumption|]. replace (K + ex - e2) with K2 by lia. assumption.
Qed.

Lemma new_location_zero (nb_steps : Z) : new_location nb_steps 0 = loc_Exact.
Proof.
  unfold new_location, new_location_even, new_location_odd.
  destruct (Z.even nb_steps); reflexivity.
Qed.

(** The quotient of two integers [0 <= a <= b] is at most 1.0. *)
Lemma of_ratio_below (a b : Z) : 0 <= a <= b -> 0 < b -> below_pow2 0 (of_ratio a b).
Proof.
  intros [Ha Hab] Hb. destruct b as [|q|q]; [lia| |lia].
  destruct a as [|p|p]; [exact I| |lia].
  assert (Hd : Zpos (digits2_pos p) <= Zpos (digits2_pos q)).
  { pose proof (digits2_pos_bounds p) as [Hp _].
    pose proof (digits2_pos_bounds q) as [_ Hq].
    destruct (Z.le_gt_cases (Zpos (digits2_pos p)) (Zpos (digits2_pos q)))
      as [|Hgt]; [assumption|].
    assert (2 ^ Zpos (digits2_pos q) <= 2 ^ (Zpos (digits2_pos p) - 1))
      by (apply Z.pow_le_mono_r; lia).
    lia. }
  unfold of_ratio, SFdiv, SFdiv_core_binary. rewrite fexp_eq. cbn [Zdigits2].
  set (e' := Z.min _ _).
  assert (He' : e' <= -53) by (subst e'; lia).
  set (s := 0 - 0 - e').
  assert (Hs : 0 <= s) by (subst s; lia).
  set (m' := match s with Z.pos _ => Z.shiftl (Z.pos p) s | 0 => Z.pos p | Z.neg _ => 0 end).
  assert (Hm' : m' = Z.pos p * 2 ^ s).
  { subst m'. destruct s as [|s'|s'] eqn:Es; [cbn; lia| |lia].
    apply Z.shiftl_mul_pow2. lia. }
  pose proof (Z_div_mod m' (Z.pos q) ltac:(lia)) as Hdiv.
  destruct (Z.div_eucl m' (Z.pos q)) as [quo r]. destruct Hdiv as [Hdiv Hr].
  assert (Hpow : 0 < 2 ^ s) by (apply Z.pow_pos_nonneg; lia).
  assert (Hquo : 0 <= quo <= 2 ^ s) by nia.
  replace 0 with (s + e') at 1 by (subst s; lia).
  cbn [xorb]. apply binary_round_aux_below; [|subst s; lia|subst s; lia].
  unfold at_most. rewrite shr_m_of_loc. split; [lia|]. split; [lia|].
  intros E. assert (r = 0) by nia. subst r. rewrite new_location_zero. split; reflexivity.
Qed.

(** The product of a float that is at most 1.0 by 0.3 is at most 0.5. *)
Lemma mul_f0_3_below (r : float) : below_pow2 0 r -> below_pow2 (-1) (mul r f0_3).
Proof.
  destruct r as [s|s| |[] m e]; cbn [below_pow2]; try contradiction.
  - intros _. exact I.
  - intros [He Hm]. unfold mul, f0_3, SFmul. cbn [xorb].
    replace (-1) with ((53 - e) + (e + -54)) at 1 by lia.
    apply binary_round_aux_below; [|lia|lia].
    assert (Hpow : 2 ^ (53 - e) = 2 ^ 53 * 2 ^ (0 - e))
      by (rewrite <- Z.pow_add_r by lia; f_equal; lia).
    assert (Hpos : 0 < 2 ^ (0 - e)) by (apply Z.pow_pos_nonneg; lia).
    unfold at_most. cbn [shr_record_of_loc shr_m shr_r shr_s].
    rewrite Pos2Z.inj_mul, Hpow. change (2 ^ 53) with 9007199254740992.
    split; [lia|]. split; [nia|]. intros E. nia.
Qed.

Lemma half_to_one_range (x : float) :
  half_to_one x -> ltb f0_0 x = true /\ leb x f1_0 = true.
Proof.
  intros (m & [[-> Hm]|[-> Hm]]).
  - split; reflexivity.
  - change (Zpos m = Zpos 4503599627370496) in Hm. injection Hm as ->.
    split; reflexivity.
Qed.

Lemma round_nearest_even_bounds (m : Z) (l : location) :
  m <= round_nearest_even m l <= m + 1.
Proof. destruct l as [|[]]; cbn; try destruct (Z.even m); lia. Qed.

Lemma shr_1_within (j : Z) (r : shr_record) :
  0 < j -> 2 ^ (j + 52) <= shr_m r < 2 ^ (j + 53) ->
  2 ^ (j - 1 + 52) <= shr_m (shr_1 r) < 2 ^ (j - 1 + 53).
Proof.
  intros Hj Hr.
  assert (Hpos : 0 <= shr_m r).
  { assert (0 < 2 ^ (j + 52)) by (apply Z.pow_pos_nonneg; lia). lia. }
  destruct (shr_1_spec r Hpos) as (_ & Hm & _).
  rewrite (pow2_step (j + 52)), (pow2_step (j + 53)) in Hr by lia.
  replace (j + 52 - 1) with (j - 1 + 52) in Hr by lia.
  replace (j + 53 - 1) with (j - 1 + 53) in Hr by lia.
  destruct (shr_r (shr_1 r)); lia.
Qed.

Lemma shr_fexp_normal (m : positive) (e : Z) (l : location) :
  e <= -53 -> 2 ^ (- e - 1) <= Zpos m < 2 ^ (- e) ->
  snd (shr_fexp prec emax (Zpos m) e l) = -53 /\
  2 ^ 52 <= shr_m (fst (shr_fexp prec emax (Zpos m) e l)) < 2 ^ 53.
Proof.
  intros He Hm. unfold shr_fexp, shr. rewrite fexp_eq. cbn [Zdigits2].
  rewrite (digits2_pos_unique m (- e) Hm).
  replace (Z.max (- e + e - 53) (-1074) - e) with (- 53 - e) by lia.
  destruct (- 53 - e) as [|n|n] eqn:En; cbn [fst snd]; [| |lia].
  - rewrite shr_m_of_loc. replace e with (-53) in * by lia. split; [reflexivity|exact Hm].
  - split; [lia|].
    pose proof (iter_pos_shr_1 (fun j r => 2 ^ (j + 52) <= shr_m r < 2 ^ (j + 53))
                  shr_1_within n (Zpos n) (shr_record_of_loc (Zpos m) l)
                  ltac:(lia)) as H'.
    cbv beta in H'. rewrite shr_m_of_loc in H'.
    replace (Zpos n - Zpos n + 52) with 52 in H' by lia.
    replace (Zpos n - Zpos n + 53) with 53 in H' by lia.
    apply H'. replace (Zpos n + 52) with (- e - 1) by lia.
    replace (Zpos n + 53) with (- e) by lia. exact Hm.
Qed.

Lemma binary_round_aux_normal (m : positive) (e : Z) :
  e <= -53 -> 2 ^ (- e - 1) <= Zpos m < 2 ^ (- e) ->
  half_to_one (binary_round_aux prec emax false (Zpos m) e loc_Exact).
Proof.
  intros He Hm. unfold binary_round_aux.
  destruct (shr_fexp_normal m e loc_Exact He Hm) as [He1 Hm1].
  destruct (shr_fexp prec emax (Zpos m) e loc_Exact) as [mrs1 e1]. cbn [fst snd] in *.
  subst e1.
  pose proof (round_nearest_even_bounds (shr_m mrs1) (loc_of_shr_record mrs1)) as Hr.
  set (m2 := round_nearest_even (shr_m mrs1) (loc_of_shr_record mrs1)) in *.
  assert (H2 : 2 ^ 52 <= m2 <= 2 ^ 53) by lia.
  destruct m2 as [|p2|p2] eqn:E2; [cbn in H2; lia| |cbn in H2; lia].
  destruct (Z.eq_dec (Zpos p2) (2 ^ 53)) as [Etop|Hlt].
  - change (Zpos p2 = Zpos 9007199254740992) in Etop. injection Etop as ->.
    exists 4503599627370496%positive. right. split; reflexivity.
  - assert (Hd : Zpos (digits2_pos p2) = 53)
      by (apply digits2_pos_unique; replace (53 - 1) with 52 by lia; lia).
    unfold shr_fexp, shr. rewrite fexp_eq. cbn [Zdigits2]. rewrite Hd.
    change (Z.max (53 + -53 - 53) (-1074) - -53) with 0.
    cbn [shr_record_of_loc shr_m]. exists p2. left. split; [reflexivity|lia].
Qed.

Lemma pos_iter_xO (m d : positive) : Zpos (Pos.iter xO m d) = Zpos m * 2 ^ Zpos d.
Proof.
  induction d as [|d IH] using Pos.peano_ind.
  - cbn. lia.
  - rewrite Pos.iter_succ, Pos2Z.inj_succ, Z.pow_succ_r by lia.
    rewrite Pos2Z.inj_xO, IH. lia.
Qed.

Lemma shl_align_spec (mx : positive) (ex ex' : Z) :
  ex' <= ex ->
  Zpos (fst (shl_align mx ex ex')) = Zpos mx * 2 ^ (ex - ex') /\
  snd (shl_align mx ex ex') = ex'.
Proof.
  intros Hle. unfold shl_align.
  destruct (ex' - ex) as [|d|d] eqn:Ed; cbn [fst snd]; [|lia|].
  - replace (ex - ex') with 0 by lia. split; lia.
  - rewrite pos_iter_xO. replace (ex - ex') with (Zpos d) by lia. split; reflexivity.
Qed.

(** One minus a float that is at most 0.5 lies between 0.5 and 1.0. *)
Lemma sub_one_below (p : float) : below_pow2 (-1) p -> half_to_one (sub f1_0 p).
Proof.
  destruct p as [s|s| |[] mp ep]; cbn [below_pow2]; try contradiction.
  - intros _. exists 4503599627370496%positive. right. split; reflexivity.
  - intros [He Hm]. unfold sub, f1_0, SFsub. cbn [cond_Zopp].
    set (ez := Z.min (-52) ep).
    destruct (shl_align_spec 4503599627370496 (-52) ez ltac:(subst ez; lia)) as [Hx _].
    destruct (shl_align_spec mp ep ez ltac:(subst ez; lia)) as [Hy _].
    rewrite Hx, Hy. clear Hx Hy.
    assert (Hez : ez <= -52) by (subst ez; lia).
    assert (HX : 4503599627370496 * 2 ^ (-52 - ez) = 2 ^ (- ez)).
    { change 4503599627370496 with (2 ^ 52). rewrite <- Z.pow_add_r by lia.
      f_equal. lia. }
    assert (HY : 1 <= Zpos mp * 2 ^ (ep - ez) <= 2 ^ (- ez - 1)).
    { assert (0 < 2 ^ (ep - ez)) by (apply Z.pow_pos_nonneg; subst ez; lia).
      split; [nia|].
      replace (- ez - 1) with ((-1 - ep) + (ep - ez)) by lia.
      rewrite Z.pow_add_r by (subst ez; lia). nia. }
    rewrite HX. clearbody ez.
    assert (Hstep : 2 ^ (- ez) = 2 * 2 ^ (- ez - 1)) by (apply pow2_step; lia).
    destruct (2 ^ (- ez) - Zpos mp * 2 ^ (ep - ez)) as [|z|z] eqn:Ez; [lia| |lia].
    assert (Hz : 2 ^ (- ez - 1) <= Zpos z < 2 ^ (- ez)) by lia.
    unfold binary_normalize, binary_round. rewrite fexp_eq.
    rewrite (digits2_pos_unique z (- ez) Hz).
    replace (Z.max (- ez + ez - 53) (-1074)) with (-53) by lia.
    destruct (Z.eq_dec ez (-52)) as [->|Hne].
    + change (shl_align z (-52) (-53)) with (z~0%positive, -53).
      apply binary_round_aux_normal; [lia|].
      rewrite Pos2Z.inj_xO. change (- -53 - 1) with 52. change (- -53) with 53.
      change (- -52 - 1) with 51 in Hz. change (- -52) with 52 in Hz.
      change (2 ^ 52) with (2 * 2 ^ 51). change (2 ^ 53) with (2 * 2 ^ 52). lia.
    + assert (Hal : shl_align z ez (-53) = (z, ez)).
      { unfold shl_align. destruct (-53 - ez) eqn:E; try reflexivity. lia. }
      rewrite Hal. apply binary_round_aux_normal; [lia|assumption].
Qed.

Lemma below_one_not_above (r : float) : below_pow2 0 r -> gtb r f1_0 = false.
Proof.
  destruct r as [s|s| |[] m e]; cbn [below_pow2]; try contradiction.
  - intros _. reflexivity.
  - intros [He Hm]. unfold gtb, ltb, SFltb, SFcompare, f1_0.
    destruct (Z.compare_spec (-52) e) as [<-|Hlt|Hgt]; [|lia|reflexivity].
    change (Pos.compare_cont Eq 4503599627370496 m)
      with (Pos.compare 4503599627370496 m).
    change (2 ^ (0 - -52)) with (Zpos 4503599627370496) in Hm.
    destruct (Pos.compare_spec 4503599627370496 m) as [_|Hlt|_]; [reflexivity|lia|reflexivity].
Qed.

(** With no more appointments than the capacity, the load ratio is not
    above 1.0 and the efficiency feature lies in (0, 1]. *)
Lemma efficiency_feature_range (today_load max_capacity : Z) :
  0 <= today_load <= max_capacity -> 0 < max_capacity ->
  exists ratio efficiency,
    load_ratio today_load max_capacity = Ok ratio /\
    gtb ratio f1_0 = false /\
    efficiency_feature today_load max_capacity = Ok efficiency /\
    ltb f0_0 efficiency = true /\ leb efficiency f1_0 = true.
Proof.
  intros Hload Hcap.
  pose proof (of_ratio_below today_load max_capacity Hload Hcap) as Hratio.
  assert (Hok : load_ratio today_load max_capacity =
                Ok (of_ratio today_load max_capacity)).
  { unfold load_ratio, int_truediv.
    replace (0 <? max_capacity) with true by (symmetry; apply Z.ltb_lt; assumption).
    replace (max_capacity =? 0) with false by (symmetry; apply Z.eqb_neq; lia).
    destruct (of_ratio today_load max_capacity); try reflexivity. contradiction. }
  exists (of_ratio today_load max_capacity). eexists.
  split; [exact Hok|]. split; [apply below_one_not_above, Hratio|].
  unfold efficiency_feature. rewrite Hok. cbn [bind]. split; [reflexivity|].
  apply half_to_one_range. unfold efficiency_of.
  apply sub_one_below, mul_f0_3_below, Hratio.
Qed.

End Rounding.

(** ** The efficiency feature *)

(** The feature row the scaler receives carries [efficiency_feature]. *)
Lemma raw_prediction_efficiency {L : Libs} (self : QueueMLModel)
    (current_hour current_day : Z) (doc_info : DoctorInfo) :
  raw_prediction self current_hour current_day doc_info =
  (ratio <- load_ratio (today_appointments doc_info) (max_capacity doc_info) ;;
   efficiency <- efficiency_feature (today_appointments doc_info) (max_capacity doc_info) ;;
   features_scaled <-
     transform (scaler self)
       {| f_queue_length := current_queue doc_info;
          f_avg_consultation := avg_consultation_time doc_info;
          f_hour := current_hour;
          f_day := current_day;
          f_efficiency := efficiency |} ;;
   predicted_wait <- predict (wait_time_model self) features_scaled ;;
   Ok (ratio, predicted_wait)).
Proof.
  unfold raw_prediction, efficiency_feature.
  destruct (load_ratio _ _); reflexivity.
Qed.

(** C3, as claimed, fails: with 30 appointments for a capacity of 20 the
    code computes 1.0 - 1.5 * 0.3 and the claim 1.0 - 1.0 * 0.3; with 100
    appointments for a capacity of 20 the efficiency is negative. *)
Lemma efficiency_not_clamped :
  efficiency_feature 30 20 = Ok (S754_finite false 4953959590107546 (-53)) /\
  efficiency_claimed 30 20 = Ok f0_7 /\
  efficiency_feature 30 20 <> efficiency_claimed 30 20 /\
  efficiency_feature 100 20 = Ok (S754_finite true 4503599627370496 (-53)) /\
  ltb f0_0 (S754_finite true 4503599627370496 (-53)) = false.
Proof.
  repeat split; try (vm_compute; reflexivity).
  vm_compute. discriminate.
Qed.

(** C3, amended.  The efficiency feature is 1.0 - load_ratio * 0.3, the load
    ratio being today's appointments divided by the capacity, and 0 when the
    capacity is not positive; the load ratio is not clamped, and the feature
    is the claimed 1.0 - min(load_ratio, 1.0) * 0.3 whenever the load ratio
    is not above 1.0.  That is the case when today's appointments do not
    exceed a positive capacity, and the feature then lies in (0, 1]. *)
Theorem efficiency_feature_formula (today_load max_capacity : Z) :
  efficiency_feature today_load max_capacity =
    (ratio <- (if max_capacity <=? 0 then Ok f0_0
               else int_truediv today_load max_capacity) ;;
     Ok (sub f1_0 (mul ratio f0_3))) /\
  (forall ratio,
      load_ratio today_load max_capacity = Ok ratio ->
      gtb ratio f1_0 = false ->
      efficiency_claimed today_load max_capacity =
      efficiency_feature today_load max_capacity) /\
  (0 <= today_load <= max_capacity -> 0 < max_capacity ->
   exists ratio efficiency,
     load_ratio today_load max_capacity = Ok ratio /\
     gtb ratio f1_0 = false /\
     efficiency_feature today_load max_capacity = Ok efficiency /\
     efficiency_claimed today_load max_capacity = Ok efficiency /\
     ltb f0_0 efficiency = true /\ leb efficiency f1_0 = true).
Proof.
  assert (Hguard : (max_capacity <=? 0) = negb (0 <? max_capacity))
    by (destruct (Z.leb_spec max_capacity 0), (Z.ltb_spec 0 max_capacity);
        simpl; lia || reflexivity).
  assert (Hclaimed : forall ratio,
             load_ratio today_load max_capacity = Ok ratio ->
             gtb ratio f1_0 = false ->
             efficiency_claimed today_load max_capacity =
             efficiency_feature today_load max_capacity).
  { intros ratio Hratio Hle.
    unfold efficiency_claimed, efficiency_feature, efficiency_of.
    unfold load_ratio in *. rewrite Hguard.
    destruct (0 <? max_capacity); cbn [negb]; rewrite Hratio; cbn [bind];
      unfold py_min; unfold gtb in Hle; rewrite Hle; reflexivity. }
  split; [|split].
  - unfold efficiency_feature, load_ratio, efficiency_of. rewrite Hguard.
    destruct (0 <? max_capacity); reflexivity.
  - exact Hclaimed.
  - intros Hload Hcap.
    destruct (Rounding.efficiency_feature_range today_load max_capacity Hload Hcap)
      as (ratio & efficiency & Hratio & Hle & Heff & Hpos & Hone).
    exists ratio, efficiency. repeat split; try assumption.
    rewrite (Hclaimed ratio Hratio Hle). exact Heff.
Qed.

Lemma efficiency_feature_formula_witness :
  (load_ratio 30 30 = Ok f1_0 /\
   efficiency_claimed 30 30 = efficiency_feature 30 30) /\
  (exists ratio efficiency,
      load_ratio 5 20 = Ok ratio /\
      gtb ratio f1_0 = false /\
      efficiency_feature 5 20 = Ok efficiency /\
      efficiency_claimed 5 20 = Ok efficiency /\
      ltb f0_0 efficiency = true /\ leb efficiency f1_0 = true).
Proof.
  split.
  - split; [vm_compute; reflexivity|].
    apply (proj1 (proj2 (efficiency_feature_formula 30 30)) f1_0).
    + vm_compute. reflexivity.
    + reflexivity.
  - apply (proj2 (proj2 (efficiency_feature_formula 5 20))); lia.
Defined.

(** ** calculate_priority *)

Lemma keyword_loop_exists (keywords : list string) (h : string) (priority : float) :
  keyword_loop keywords h priority =
  if existsb (fun keyword => contains keyword h) keywords
  then add priority f0_1 else priority.
Proof.
  induction keywords as [|k rest IH]; cbn [keyword_loop existsb]; [reflexivity|].
  destruct (contains k h); [reflexivity|exact IH].
Qed.

(** The score before the clamp, by cases. *)
Lemma raw_priority_cases (patient : Patient) :
  raw_priority patient =
  let score := match age_bonus (age patient) with
               | Some bonus => add f0_5 bonus
               | None => f0_5
               end in
  if keyword_matches (medical_history patient) then add score f0_1 else score.
Proof.
  unfold raw_priority, age_bonus, keyword_matches.
  destruct (medical_history patient) as [[|c h]|].
  - destruct (65 <? age patient), (age patient <? 5); reflexivity.
  - rewrite keyword_loop_exists.
    destruct (65 <? age patient), (age patient <? 5); reflexivity.
  - destruct (65 <? age patient), (age patient <? 5); reflexivity.
Qed.

(** *** Lowering the history against ignoring the case *)

Lemma lower_ascii_code (a : ascii) :
  nat_of_ascii (lower_ascii a) =
  if ((65 <=? nat_of_ascii a) && (nat_of_ascii a <=? 90))%nat
  then (nat_of_ascii a + 32)%nat else nat_of_ascii a.
Proof.
  unfold lower_ascii. cbv zeta.
  destruct ((65 <=? nat_of_ascii a) && (nat_of_ascii a <=? 90))%nat eqn:E; [|reflexivity].
  apply andb_true_iff in E. destruct E as [E1 E2].
  apply Nat.leb_le in E1. apply Nat.leb_le in E2.
  apply nat_ascii_embedding. lia.
Qed.

Ltac letter_cases x y :=
  destruct (Nat.leb_spec 65 x), (Nat.leb_spec x 90), (Nat.leb_spec 65 y),
    (Nat.leb_spec y 90), (Nat.eqb_spec x y), (Nat.eqb_spec y (x + 32)),
    (Nat.eqb_spec x (y + 32));
  cbn [andb orb] in *; try reflexivity; lia.

(** A character that lowering leaves alone is the lowering of [b] exactly
    when it is the same letter as [b]. *)
Lemma same_letter_lower (a b : ascii) :
  lower_ascii a = a ->
  same_letter a b = if ascii_dec a (lower_ascii b) then true else false.
Proof.
  intros Ha. apply (f_equal nat_of_ascii) in Ha. rewrite lower_ascii_code in Ha.
  unfold same_letter. cbv zeta.
  destruct (ascii_dec a (lower_ascii b)) as [E|E].
  - apply (f_equal nat_of_ascii) in E. rewrite lower_ascii_code in E.
    revert Ha E. generalize (nat_of_ascii a) (nat_of_ascii b). intros x y Ha E.
    letter_cases x y.
  - assert (E' : nat_of_ascii a <> nat_of_ascii (lower_ascii b)).
    { intros H. apply E.
      rewrite <- (ascii_nat_embedding a), H. apply ascii_nat_embedding. }
    rewrite lower_ascii_code in E'.
    revert Ha E'. generalize (nat_of_ascii a) (nat_of_ascii b). intros x y Ha E'.
    letter_cases x y.
Qed.

Lemma prefix_lower (k : string) :
  lower k = k -> forall h, prefix k (lower h) = starts_ignoring_case k h.
Proof.
  induction k as [|a k IH]; intros Hk h.
  - destruct h; reflexivity.
  - cbn [lower] in Hk. injection Hk as Ha Hk.
    destruct h as [|b h]; cbn [lower prefix starts_ignoring_case]; [reflexivity|].
    rewrite (same_letter_lower a b Ha).
    destruct (ascii_dec a (lower_ascii b)); [apply IH; exact Hk|reflexivity].
Qed.

(** A lower-case keyword is in the lowered history exactly when it occurs
    in the history, case ignored. *)
Lemma contains_lower (k : string) :
  lower k = k -> forall h, contains k (lower h) = occurs_ignoring_case k h.
Proof.
  intros Hk. induction h as [|b h IH].
  - cbn [lower contains occurs_ignoring_case].
    rewrite <- (prefix_lower k Hk EmptyString). cbn [lower].
    destruct (prefix k EmptyString); reflexivity.
  - cbn [contains occurs_ignoring_case].
    rewrite <- (prefix_lower k Hk (String b h)).
    cbn [lower]. cbn [contains]. rewrite IH.
    destruct (prefix k (String (lower_ascii b) (lower h))); reflexivity.
Qed.

Lemma keyword_matches_occurs (history : option string) :
  keyword_matches history = keyword_occurs history.
Proof.
  destruct history as [h|]; [|reflexivity].
  unfold keyword_matches, keyword_occurs, emergency_keywords, claimed_keywords.
  cbn [existsb].
  rewrite !contains_lower by reflexivity. reflexivity.
Qed.

(** C4.  [calculate_priority] is the claimed score: base 0.5, plus 0.2 above
    65 years or else plus 0.15 below 5, plus 0.1 once when one of heart,
    chest pain, breathing, diabetic, emergency, severe, acute, critical
    occurs in the history as a substring, whatever the case of the letters
    of the history, at most 1.0.  At 70 years with an empty history it is
    0.7; at 3 years with the history "patient has severe chest pain" it is
    0.75; a keyword in upper case counts, and a history without keyword
    does not. *)
Theorem calculate_priority_as_claimed :
  (forall patient, calculate_priority patient = score_as_claimed patient) /\
  calculate_priority (patient_of 70 "") = f0_7 /\
  calculate_priority (patient_of 3 "patient has severe chest pain") = f0_75 /\
  calculate_priority (patient_of 30 "ACUTE Asthma, Chest Pain") = of_ratio 6 10 /\
  calculate_priority (patient_of 30 "hay fever") = f0_5.
Proof.
  split; [|repeat split; vm_compute; reflexivity].
  intros patient. unfold calculate_priority, score_as_claimed.
  rewrite raw_priority_cases, keyword_matches_occurs.
  unfold age_bonus, py_min.
  destruct (65 <? age patient), (age patient <? 5),
    (keyword_occurs (medical_history patient)); reflexivity.
Qed.

(** C5.  The priority score lies between 0.5 and 1.0, whatever the age and
    the history. *)
Theorem calculate_priority_bounds (patient : Patient) :
  leb f0_5 (calculate_priority patient) = true /\
  leb (calculate_priority patient) f1_0 = true.
Proof.
  unfold calculate_priority. rewrite raw_priority_cases. unfold age_bonus.
  destruct (65 <? age patient), (age patient <? 5),
    (keyword_matches (medical_history patient)); split; vm_compute; reflexivity.
Qed.

(** C10.  The priority score is at most 0.8: the final clamp leaves the
    score as it is, and the score is strictly below 1.0. *)
Theorem calculate_priority_at_most_0_8 (patient : Patient) :
  leb (calculate_priority patient) f0_8 = true /\
  calculate_priority patient = raw_priority patient /\
  ltb (calculate_priority patient) f1_0 = true.
Proof.
  unfold calculate_priority. rewrite raw_priority_cases. unfold age_bonus.
  destruct (65 <? age patient), (age patient <? 5),
    (keyword_matches (medical_history patient)); repeat split; vm_compute; reflexivity.
Qed.

(** C9, as the code has it.  The caller does not supply the clock: the
    same call, on the same object, the same candidates and the same
    patient, assigns doctor 2 with a wait of 9 minutes on a Monday at 9:00,
    doctor 1 with a wait of 57 minutes on the Thursday after at 9:00, and
    doctor 2 with a wait of 17 minutes on the Monday at 17:00. *)
Lemma assign_doctor_reads_the_clock :
  fst (assign_doctor_now (L := hourly_libs) hourly_model (clock_at monday_9am)
         long_and_short toy_patient) = Ok (Some 2, 9) /\
  fst (assign_doctor_now (L := hourly_libs) hourly_model (clock_at thursday_9am)
         long_and_short toy_patient) = Ok (Some 1, 57) /\
  fst (assign_doctor_now (L := hourly_libs) hourly_model (clock_at monday_5pm)
         long_and_short toy_patient) = Ok (Some 2, 17) /\
  ~ (forall (L : Libs) (self : QueueMLModel) clock clock' cands patient,
        fst (assign_doctor_now self clock cands patient) =
        fst (assign_doctor_now self clock' cands patient)).
Proof.
  split; [reflexivity|]. split; [reflexivity|]. split; [reflexivity|].
  intros H.
  specialize (H hourly_libs hourly_model (clock_at monday_9am) (clock_at thursday_9am)
                long_and_short toy_patient).
  assert (E1 : fst (assign_doctor_now (L := hourly_libs) hourly_model
                      (clock_at monday_9am) long_and_short toy_patient) =
               Ok (Some 2, 9)) by reflexivity.
  assert (E2 : fst (assign_doctor_now (L := hourly_libs) hourly_model
                      (clock_at thursday_9am) long_and_short toy_patient) =
               Ok (Some 1, 57)) by reflexivity.
  rewrite E1, E2 in H. discriminate H.
Qed.

(** C9, amended.  A call of [assign_doctor] reads the clock twice and
    leaves it two readings later.  Its result is the one of the loop run
    with the hour of the first reading and the weekday of the second: two
    calls on the same object and the same candidate list return the same
    result when their first readings have the same hour and their second
    readings the same weekday, whoever the patient is. *)
Theorem assign_doctor_now_deterministic {L : Libs} (self : QueueMLModel)
    (clock clock' : Clock) (cands : list DoctorInfo) (patient patient' : Patient) :
  dt_hour (clock 0%nat) = dt_hour (clock' 0%nat) ->
  weekday (clock 1%nat) = weekday (clock' 1%nat) ->
  fst (assign_doctor_now self clock cands patient) =
    fst (assign_doctor_now self clock' cands patient') /\
  fst (assign_doctor_now self clock cands patient) =
    assign_doctor self (clock 0%nat) (clock 1%nat) cands patient /\
  (forall n, snd (assign_doctor_now self clock cands patient) n = clock (S (S n))).
Proof.
  intros Hhour Hday. unfold assign_doctor_now, now. cbn [fst snd].
  split; [|split; [reflexivity|intros n; reflexivity]].
  unfold assign_doctor. rewrite Hhour, Hday. reflexivity.
Qed.

(** The hour of a Sunday night with the weekday of the Monday that begins,
    against a whole Monday at 23:00. *)
Lemma assign_doctor_now_deterministic_witness :
  dt_hour (clock_from sunday_last monday_first 0%nat) = 23 /\
  weekday (clock_from sunday_last monday_first 1%nat) = 0 /\
  fst (assign_doctor_now (L := hourly_libs) hourly_model
         (clock_from sunday_last monday_first) long_and_short toy_patient) =
  fst (assign_doctor_now (L := hourly_libs) hourly_model
         (clock_at {| toordinal := 739929; dt_hour := 23; dt_minute := 30;
                      dt_second := 0; dt_microsecond := 0 |})
         long_and_short (patient_of 70 "heart")).
Proof.
  split; [reflexivity|]. split; [reflexivity|].
  apply (assign_doctor_now_deterministic (L := hourly_libs) hourly_model
           (clock_from sunday_last monday_first)
           (clock_at {| toordinal := 739929; dt_hour := 23; dt_minute := 30;
                        dt_second := 0; dt_microsecond := 0 |})
           long_and_short toy_patient (patient_of 70 "heart")); reflexivity.
Defined.

(** C7, as the code has it.  [assign_doctor] has no error of its own for
    an empty list and checks no precondition: the empty list raises the
    OverflowError of [int(float('inf'))], which a list that is not empty
    raises as well, and a list of unavailable doctors is served as any
    other. *)
Lemma assign_doctor_checks_no_precondition :
  assign_doctor (L := toy_libs) toy_model monday_9am monday_9am [] toy_patient =
    Raise OverflowError /\
  assign_doctor (L := toy_libs) toy_model monday_9am monday_9am [overflowing]
    toy_patient = Raise OverflowError /\
  Forall (fun doc => is_available doc = false)
    (filter (fun doc => negb (is_available doc)) toy_doctors) /\
  unavailable_candidates = [doctor 1 2 15 0 40] /\
  assign_doctor (L := toy_libs) toy_model monday_9am monday_9am unavailable_candidates
    toy_patient = Ok (Some 1, 30) /\
  ~ (forall (L : Libs) (self : QueueMLModel) t1 t2 cands patient e,
        assign_doctor self t1 t2 cands patient = Raise e -> cands = []).
Proof.
  split; [reflexivity|]. split; [reflexivity|].
  split; [repeat constructor|]. split; [reflexivity|]. split; [reflexivity|].
  intros H.
  specialize (H toy_libs toy_model monday_9am monday_9am [overflowing] toy_patient
                OverflowError eq_refl).
  discriminate H.
Qed.

(** C7, amended.  On the empty candidate list [assign_doctor] fails with
    the OverflowError its conversion of the infinite initial minimum
    raises; the failure that is defined for a department without available
    doctor is the reply 400 of [book_appointment], which does not call
    [assign_doctor] then, and which passes it available doctors only. *)
Theorem assign_doctor_no_candidate {L : Libs} (self : QueueMLModel)
    (t1 t2 : datetime) (patient : Patient) :
  assign_doctor self t1 t2 [] patient = Raise OverflowError /\
  (forall doctors today_count department_id,
      available_doctors doctors department_id = [] ->
      book_appointment self t1 t2 (Some patient) doctors today_count department_id =
      Ok NoDoctorsAvailable400) /\
  (forall doctors department_id doc,
      In doc (available_doctors doctors department_id) -> is_available doc = true).
Proof.
  split; [reflexivity|split].
  - intros doctors today_count department_id Hnone.
    unfold book_appointment. rewrite Hnone. reflexivity.
  - intros doctors department_id doc Hin.
    apply filter_In in Hin. destruct Hin as [_ Hin].
    apply andb_true_iff in Hin. apply Hin.
Qed.

Lemma assign_doctor_no_candidate_witness :
  available_doctors toy_doctors 1 = [] /\
  book_appointment (L := toy_libs) toy_model monday_9am monday_9am
    (Some (patient_of 40 "")) toy_doctors (fun _ => 0) 1 = Ok NoDoctorsAvailable400.
Proof.
  split; [reflexivity|].
  apply (proj1 (proj2 (assign_doctor_no_candidate (L := toy_libs) toy_model
                         monday_9am monday_9am (patient_of 40 "")))).
  reflexivity.
Defined.

(** [update_model], when it returns, in the words of the source. *)
Lemma update_model_equation {L : Libs} (self : QueueMLModel) (w : World)
    (appointment_data : list CompletedAppointment) :
  update_model self w appointment_data =
  if (List.length appointment_data <? 50)%nat then Ok (self, w)
  else
    let X_new := map features_of appointment_data in
    let y_new := map (fun apt => Int (actual_wait_time apt)) appointment_data in
    '(scaler', X_scaled) <- fit_transform (scaler self) X_new ;;
    model' <- fit (wait_time_model self) X_scaled y_new ;;
    let self :=
      {| wait_time_model := model'; scaler := scaler'; is_trained := is_trained self |} in
    let w := dump self w in
    Ok (self, print (updated_message (List.length appointment_data)) w).
Proof.
  unfold update_model, update_model_in_place.
  destruct (List.length appointment_data <? 50)%nat; [reflexivity|].
  cbv zeta. unfold fit_transform, fit.
  destruct (scaler_fit _ _) as [p|e]; [|reflexivity]. cbn [bind].
  destruct (map_result _ _) as [Xs|e]; [|reflexivity]. cbn [bind].
  destruct (forest_fit _ _ _) as [fp|e]; reflexivity.
Qed.

(** ** The constructor and is_trained *)

Lemma fit_transform_fitted {L : Libs} (s s' : Scaler) (X : list Features)
    (X_scaled : list Scaled) :
  fit_transform s X = Ok (s', X_scaled) -> is_fitted s' = true.
Proof.
  unfold fit_transform. intros H.
  apply bind_ok in H. destruct H as (p & _ & H).
  apply bind_ok in H. destruct H as (Xs & _ & H).
  injection H as <- _. reflexivity.
Qed.

Lemma fit_fitted {L : Libs} (m m' : Forest) (X : list Scaled) (y : list num) :
  fit m X y = Ok m' -> is_fitted m' = true.
Proof.
  unfold fit. intros H.
  apply bind_ok in H. destruct H as (p & _ & H).
  injection H as <-. reflexivity.
Qed.

Lemma _train_initial_model_trained {L : Libs} (self self' : QueueMLModel) (w w' : World) :
  _train_initial_model self w = Ok (self', w') ->
  is_trained self' = true /\
  is_fitted (scaler self') = true /\
  is_fitted (wait_time_model self') = true /\
  pickles_fitted w'.
Proof.
  unfold _train_initial_model. intros H.
  apply bind_ok in H. destruct H as ([sc Xs] & Hsc & H).
  apply bind_ok in H. destruct H as (m & Hm & H).
  injection H as <- <-.
  apply fit_transform_fitted in Hsc. apply fit_fitted in Hm.
  repeat split; try assumption.
  - intros m0 Hm0. cbn in Hm0. injection Hm0 as <-. assumption.
  - intros s0 Hs0. cbn in Hs0. injection Hs0 as <-. assumption.
Qed.

(** After construction the flag is set; on pickle files that hold fitted
    estimators both estimators of the object are fitted as well. *)
Lemma __init___trained {L : Libs} (w w' : World) (self : QueueMLModel) :
  __init__ w = Ok (self, w') ->
  is_trained self = true /\
  (pickles_fitted w ->
   is_fitted (scaler self) = true /\ is_fitted (wait_time_model self) = true /\
   pickles_fitted w').
Proof.
  unfold __init__, _load_model. intros H.
  destruct w as [mf sf out]. cbn [queue_model_pkl scaler_pkl] in H.
  destruct mf as [| |m], sf as [| |s]; cbn [is_trained negb] in H;
    try (apply _train_initial_model_trained in H;
         destruct H as (? & ? & ? & ?); split; [assumption|intros _; auto]).
  injection H as <- <-. split; [reflexivity|].
  intros [Hm Hs]. cbn in Hm, Hs. repeat split.
  - apply Hs. reflexivity.
  - apply Hm. reflexivity.
  - intros m0 E. cbn in E. apply Hm. assumption.
  - intros s0 E. cbn in E. apply Hs. assumption.
Qed.

(** The flag is not read on the prediction path. *)
Lemma assign_doctor_ignores_flag {L : Libs} (self : QueueMLModel) (flag : bool)
    (t1 t2 : datetime) (cands : list DoctorInfo) (patient : Patient) :
  assign_doctor (with_is_trained self flag) t1 t2 cands patient =
  assign_doctor self t1 t2 cands patient.
Proof. reflexivity. Qed.

Lemma unfitted_scaler_fails {L : Libs} (self : QueueMLModel) :
  is_fitted (scaler self) = false ->
  (forall t1 t2 cands patient,
      exists e, assign_doctor self t1 t2 cands patient = Raise e) /\
  (forall t1 t2 doc rest patient ratio,
      load_ratio (today_appointments doc) (max_capacity doc) = Ok ratio ->
      assign_doctor self t1 t2 (doc :: rest) patient = Raise NotFittedError).
Proof.
  intros Hfit.
  assert (Hstep : forall t1 t2 doc rest patient ratio,
             load_ratio (today_appointments doc) (max_capacity doc) = Ok ratio ->
             assign_doctor self t1 t2 (doc :: rest) patient = Raise NotFittedError).
  { intros t1 t2 doc rest patient ratio Hratio.
    unfold assign_doctor. cbn [for_each]. unfold assign_step.
    rewrite Hratio. cbn [bind]. unfold transform.
    unfold is_fitted in Hfit. destruct (fitted (scaler self)); [discriminate|].
    reflexivity. }
  split; [|exact Hstep].
  intros t1 t2 [|doc rest] patient.
  - exists OverflowError. reflexivity.
  - destruct (load_ratio (today_appointments doc) (max_capacity doc)) as [ratio|e] eqn:E.
    + exists NotFittedError. eapply Hstep; eassumption.
    + exists e. unfold assign_doctor. cbn [for_each]. unfold assign_step.
      rewrite E. reflexivity.
Qed.

Lemma unfitted_forest_fails {L : Libs} (self : QueueMLModel) :
  is_fitted (wait_time_model self) = false ->
  forall t1 t2 doc rest patient ratio features_scaled,
    load_ratio (today_appointments doc) (max_capacity doc) = Ok ratio ->
    transform (scaler self)
      {| f_queue_length := current_queue doc;
         f_avg_consultation := avg_consultation_time doc;
         f_hour := dt_hour t1;
         f_day := weekday t2;
         f_efficiency := efficiency_of ratio |} = Ok features_scaled ->
    assign_doctor self t1 t2 (doc :: rest) patient = Raise NotFittedError.
Proof.
  intros Hfit t1 t2 doc rest patient ratio xs Hratio Hxs.
  unfold assign_doctor. cbn [for_each]. unfold assign_step.
  rewrite Hratio. cbn [bind]. rewrite Hxs. cbn [bind]. unfold predict.
  unfold is_fitted in Hfit. destruct (fitted (wait_time_model self)); [discriminate|].
  reflexivity.
Qed.

(** An update whose scaler refuses the batch leaves the scaler reset. *)
Lemma update_model_in_place_refused {L : Libs} (self : QueueMLModel) (w : World)
    (appointment_data : list CompletedAppointment) (e : exn) :
  (50 <= List.length appointment_data)%nat ->
  scaler_fit (hyper (scaler self)) (map features_of appointment_data) = Raise e ->
  update_model_in_place self w appointment_data =
  ({| wait_time_model := wait_time_model self;
      scaler := {| hyper := hyper (scaler self); fitted := None |};
      is_trained := is_trained self |}, w, Raise e).
Proof.
  intros Hlen Hfit. unfold update_model_in_place.
  apply Nat.ltb_ge in Hlen. rewrite Hlen. cbv zeta. rewrite Hfit. reflexivity.
Qed.

(** C8, as the code has it.  No failure is tied to the flag: an object
    whose flag is unset and whose estimators are fitted predicts.  And
    prediction can fail after construction, with [is_trained] set: when the
    pickle files the constructor loaded hold estimators nobody fitted, and
    after an [update_model] whose scaler refused the batch. *)
Lemma untrained_flag_predicts :
  (is_trained toy_untrained = false /\
   assign_doctor (L := toy_libs) toy_untrained monday_9am monday_9am two_candidates
     toy_patient = Ok (Some 2, 18)) /\
  (__init__ (L := toy_libs) toy_world_unfitted =
     Ok (toy_loaded_unfitted, print "Loaded pre-trained model" toy_world_unfitted) /\
   is_trained toy_loaded_unfitted = true /\
   assign_doctor (L := toy_libs) toy_loaded_unfitted monday_9am monday_9am
     two_candidates toy_patient = Raise NotFittedError) /\
  (__init__ (L := strict_libs) strict_world = Ok (strict_model, strict_world_trained) /\
   update_model_in_place (L := strict_libs) strict_model strict_world_trained
     (repeat nan_appointment 50) =
     (strict_model_reset, strict_world_trained, Raise ValueError) /\
   is_trained strict_model_reset = true /\
   assign_doctor (L := strict_libs) strict_model_reset monday_9am monday_9am
     two_candidates toy_patient = Raise NotFittedError) /\
  ~ (forall (L : Libs) (self : QueueMLModel) t1 t2 cands patient,
        is_trained self = false ->
        exists e, assign_doctor self t1 t2 cands patient = Raise e).
Proof.
  split; [split; reflexivity|].
  split; [repeat split; reflexivity|].
  split; [repeat split; reflexivity|].
  intros H.
  destruct (H toy_libs toy_untrained monday_9am monday_9am two_candidates toy_patient
              eq_refl) as [e He].
  assert (E : assign_doctor (L := toy_libs) toy_untrained monday_9am monday_9am
                two_candidates toy_patient = Ok (Some 2, 18)) by reflexivity.
  rewrite E in He. discriminate He.
Qed.

(** C8, amended.  [assign_doctor] never reads [is_trained]: its result is
    the same whatever the flag, and there is no NotTrainedError.  What
    fails a prediction is an estimator that is not fitted: scikit-learn's
    NotFittedError, raised at the first candidate, from the scaler once the
    load ratio is computed, from the regressor once the scaler has
    transformed the row.  After construction the flag is set, and both
    estimators are fitted when the pickle files, where they hold an
    estimator, hold a fitted one.  An [update_model] of 50 samples or more
    whose scaler refuses the batch leaves the flag as it was and the scaler
    not fitted. *)
Theorem is_trained_never_read {L : Libs} (self : QueueMLModel) :
  (forall flag t1 t2 cands patient,
      assign_doctor (with_is_trained self flag) t1 t2 cands patient =
      assign_doctor self t1 t2 cands patient) /\
  (is_fitted (scaler self) = false ->
   forall t1 t2 doc rest patient ratio,
     load_ratio (today_appointments doc) (max_capacity doc) = Ok ratio ->
     assign_doctor self t1 t2 (doc :: rest) patient = Raise NotFittedError) /\
  (is_fitted (wait_time_model self) = false ->
   forall t1 t2 doc rest patient ratio features_scaled,
     load_ratio (today_appointments doc) (max_capacity doc) = Ok ratio ->
     transform (scaler self)
       {| f_queue_length := current_queue doc;
          f_avg_consultation := avg_consultation_time doc;
          f_hour := dt_hour t1;
          f_day := weekday t2;
          f_efficiency := efficiency_of ratio |} = Ok features_scaled ->
     assign_doctor self t1 t2 (doc :: rest) patient = Raise NotFittedError) /\
  (forall w built w',
      __init__ w = Ok (built, w') ->
      is_trained built = true /\
      (pickles_fitted w ->
       is_fitted (scaler built) = true /\ is_fitted (wait_time_model built) = true)) /\
  (forall w appointment_data e,
      (50 <= List.length appointment_data)%nat ->
      scaler_fit (hyper (scaler self)) (map features_of appointment_data) = Raise e ->
      exists left,
        update_model_in_place self w appointment_data = (left, w, Raise e) /\
        is_trained left = is_trained self /\
        is_fitted (scaler left) = false /\
        wait_time_model left = wait_time_model self).
Proof.
  split; [intros; apply assign_doctor_ignores_flag|].
  split; [intros Hfit; apply (proj2 (unfitted_scaler_fails self Hfit))|].
  split; [apply unfitted_forest_fails|].
  split.
  - intros w built w' H. destruct (__init___trained w w' built H) as [Hflag Hfit].
    split; [assumption|]. intros Hw. destruct (Hfit Hw) as (Hs & Hm & _).
    split; assumption.
  - intros w appointment_data e Hlen Hfit. eexists. split.
    + apply update_model_in_place_refused; assumption.
    + repeat split.
Qed.

Lemma is_trained_never_read_witness :
  is_fitted (scaler toy_unfitted) = false /\
  assign_doctor (L := toy_libs) toy_unfitted monday_9am monday_9am two_candidates
    (patient_of 40 "") = Raise NotFittedError /\
  (__init__ (L := toy_libs) toy_world = Ok (toy_model, toy_world_trained) /\
   is_trained toy_model = true /\
   (pickles_fitted toy_world ->
    is_fitted (scaler toy_model) = true /\ is_fitted (wait_time_model toy_model) = true)) /\
  (exists left,
      update_model_in_place (L := strict_libs) strict_model strict_world_trained
        (repeat nan_appointment 50) = (left, strict_world_trained, Raise ValueError) /\
      is_trained left = is_trained strict_model /\
      is_fitted (scaler left) = false /\
      wait_time_model left = wait_time_model strict_model).
Proof.
  split; [reflexivity|]. split; [|split].
  - apply (proj1 (proj2 (is_trained_never_read (L := toy_libs) toy_unfitted)) eq_refl
             monday_9am monday_9am (doctor 1 3 10 5 20) [doctor 2 2 10 18 20]
             (patient_of 40 "") (of_ratio 1 4)).
    vm_compute. reflexivity.
  - split; [reflexivity|].
    apply (proj1 (proj2 (proj2 (proj2 (is_trained_never_read (L := toy_libs) toy_model))))
             toy_world toy_model toy_world_trained).
    reflexivity.
  - apply (proj2 (proj2 (proj2 (proj2 (is_trained_never_read (L := strict_libs)
                                         strict_model))))
             strict_world_trained (repeat nan_appointment 50) ValueError).
    + vm_compute. lia.
    + reflexivity.
Defined.

(** ** update_model *)

(** The rows [update_model] builds are the rows of the samples, and there
    are no others. *)
Lemma features_of_rows (appointment_data : list CompletedAppointment)
    (X : list Features) :
  Forall2 row_of_sample appointment_data X -> X = map features_of appointment_data.
Proof.
  induction 1 as [|apt row data X Hrow _ IH]; [reflexivity|].
  cbn [map]. f_equal; [|exact IH].
  destruct row as [q c h d e]. destruct Hrow as (Hq & Hc & Hh & Hd & He).
  cbn in Hq, Hc, Hh, Hd, He. subst. reflexivity.
Qed.

Lemma targets_of_samples (appointment_data : list CompletedAppointment) (y : list num) :
  Forall2 target_of_sample appointment_data y ->
  y = map (fun apt => Int (actual_wait_time apt)) appointment_data.
Proof.
  induction 1 as [|apt t data y Ht _ IH]; [reflexivity|].
  cbn [map]. f_equal; [exact Ht|exact IH].
Qed.

Lemma map_result_each {A B : Type} (f : A -> result B) (xs : list A) (ys : list B) :
  Forall2 (fun x y => f x = Ok y) xs ys -> map_result f xs = Ok ys.
Proof.
  induction 1 as [|x y xs ys Hxy _ IH]; [reflexivity|].
  cbn [map_result]. rewrite Hxy. cbn [bind]. rewrite IH. reflexivity.
Qed.

Lemma Forall2_repeat {A B : Type} (R : A -> B -> Prop) (a : A) (b : B) (n : nat) :
  R a b -> Forall2 R (repeat a n) (repeat b n).
Proof.
  intros H. induction n as [|n IH]; cbn [repeat]; constructor; assumption.
Qed.

(** C6, as the code has it.  [update_model] has no Skipped result: on 49
    samples it returns what it returns on 50, [None]. *)
Lemma update_model_returns_none :
  snd (update_model_in_place (L := toy_libs) toy_untrained toy_world (batch_of 49)) =
    Ok tt /\
  snd (update_model_in_place (L := toy_libs) toy_untrained toy_world (batch_of 50)) =
    Ok tt /\
  fst (update_model_in_place (L := toy_libs) toy_untrained toy_world (batch_of 49)) =
    (toy_untrained, toy_world) /\
  fst (update_model_in_place (L := toy_libs) toy_untrained toy_world (batch_of 50)) =
    (toy_retrained, toy_world_updated) /\
  ~ (forall (L : Libs) (self self' : QueueMLModel) (w w' : World) data data',
        (List.length data < 50)%nat -> (50 <= List.length data')%nat ->
        snd (update_model_in_place self w data) <>
        snd (update_model_in_place self' w' data')).
Proof.
  split; [reflexivity|]. split; [reflexivity|]. split; [reflexivity|].
  split; [reflexivity|].
  intros H.
  apply (H toy_libs toy_untrained toy_untrained toy_world toy_world
           (batch_of 49) (batch_of 50)).
  - vm_compute. lia.
  - vm_compute. lia.
  - reflexivity.
Qed.

(** C6, amended.  With fewer than 50 samples [update_model] changes
    nothing: the object, the pickle files and the output are as before,
    and it returns [None].  With 50 samples or more, when scikit-learn
    accepts the batch, the scaler is fitted, from its hyper-parameters
    alone, on the rows of the batch: queue length, average consultation
    time, hour, day of week and doctor efficiency of each sample, in the
    order of the samples; the regressor is fitted, from its
    hyper-parameters alone, on these rows transformed by the new scaler and
    on the waits of the samples; both replace the estimators of the object
    and are pickled, one line is printed, the flag stays as it was, and
    [None] is returned as well. *)
Theorem update_model_refits_on_batch {L : Libs} (self : QueueMLModel) (w : World)
    (appointment_data : list CompletedAppointment) :
  ((List.length appointment_data < 50)%nat ->
   update_model_in_place self w appointment_data = (self, w, Ok tt)) /\
  ((50 <= List.length appointment_data)%nat ->
   forall X y sp X_scaled fp,
     Forall2 row_of_sample appointment_data X ->
     Forall2 target_of_sample appointment_data y ->
     scaler_fit (hyper (scaler self)) X = Ok sp ->
     Forall2 (fun row scaled => scaler_transform sp row = Ok scaled) X X_scaled ->
     forest_fit (hyper (wait_time_model self)) X_scaled y = Ok fp ->
     update_model_in_place self w appointment_data =
     ({| wait_time_model := {| hyper := hyper (wait_time_model self); fitted := Some fp |};
         scaler := {| hyper := hyper (scaler self); fitted := Some sp |};
         is_trained := is_trained self |},
      {| queue_model_pkl :=
           Pickled {| hyper := hyper (wait_time_model self); fitted := Some fp |};
         scaler_pkl := Pickled {| hyper := hyper (scaler self); fitted := Some sp |};
         stdout := stdout w ++ [updated_message (List.length appointment_data)] |},
      Ok tt)).
Proof.
  split.
  - intros Hlen. unfold update_model_in_place.
    apply Nat.ltb_lt in Hlen. rewrite Hlen. reflexivity.
  - intros Hlen X y sp X_scaled fp HX Hy Hsp HXs Hfp.
    apply features_of_rows in HX. apply targets_of_samples in Hy. subst X y.
    apply map_result_each in HXs.
    unfold update_model_in_place.
    apply Nat.ltb_ge in Hlen. rewrite Hlen. cbv zeta.
    rewrite Hsp, HXs. cbn [bind]. unfold fit. rewrite Hfp. reflexivity.
Qed.

Lemma update_model_refits_on_batch_witness :
  update_model_in_place (L := toy_libs) toy_untrained toy_world (batch_of 49) =
    (toy_untrained, toy_world, Ok tt) /\
  update_model_in_place (L := toy_libs) toy_unfitted toy_world (batch_of 50) =
    (toy_retrained, toy_world_updated, Ok tt).
Proof.
  split.
  - apply (proj1 (update_model_refits_on_batch (L := toy_libs) toy_untrained toy_world
                    (batch_of 49))).
    vm_compute. lia.
  - apply (proj2 (update_model_refits_on_batch (L := toy_libs) toy_unfitted toy_world
                    (batch_of 50))
             ltac:(vm_compute; lia) (repeat toy_row 50) (repeat (Int 40) 50) tt
             (repeat toy_row 50) tt).
    + apply Forall2_repeat. repeat split.
    + apply Forall2_repeat. reflexivity.
    + reflexivity.
    + apply (Forall2_repeat (fun row scaled => Ok row = Ok scaled)). reflexivity.
    + reflexivity.
Defined.

(** * Further properties of the code *)

(** ** assign_doctor, whatever the estimator returns *)

Section SelectionAnyEstimator.

Context {L : Libs}.

Variable self : QueueMLModel.
Variables current_hour current_day : Z.

Local Abbreviation step := (assign_step self current_hour current_day).
Local Abbreviation wait_of := (adjusted_wait self current_hour current_day).

(** A loop that ends without an exception either kept its accumulator, no
    candidate being below it, or ends on a candidate that no candidate is
    below and that is strictly below every earlier candidate whose wait is
    a number. *)
Lemma loop_result (cands : list DoctorInfo) :
  forall acc acc' : option Z * float,
    for_each step cands acc = Ok acc' ->
    (acc' = acc /\
     forall doc w, In doc cands -> wait_of doc = Ok w -> ltb w (snd acc) = false)
    \/
    (exists i doc m,
        nth_error cands i = Some doc /\
        wait_of doc = Ok m /\
        acc' = (Some (doctor_id doc), m) /\
        ltb m (snd acc) = true /\
        (forall j doc' w', nth_error cands j = Some doc' -> wait_of doc' = Ok w' ->
                           ltb w' m = false) /\
        (forall j doc' w', (j < i)%nat -> nth_error cands j = Some doc' ->
                           wait_of doc' = Ok w' -> is_nan w' = false ->
                           ltb m w' = true)).
Proof.
  induction cands as [|d rest IH]; intros acc acc' Hrun.
  - left. cbn in Hrun. injection Hrun as <-. split; [reflexivity|]. intros doc w [].
  - cbn [for_each] in Hrun. rewrite assign_step_adjusted in Hrun.
    apply bind_ok in Hrun. destruct Hrun as (acc1 & Hstep & Hrun).
    apply bind_ok in Hstep. destruct Hstep as (w & Hw & Hacc1).
    injection Hacc1 as <-.
    destruct (ltb w (snd acc)) eqn:Hlt.
    + destruct (IH _ _ Hrun)
        as [[-> Hnone] | (i & doc & m & Hi & Hm & -> & Hbelow & Hmin & Hfirst)].
      * right. exists 0%nat, d, w. repeat split; try assumption.
        -- intros [|j] doc' w' Hj Hw'; cbn in Hj.
           ++ injection Hj as <-. rewrite Hw in Hw'. injection Hw' as <-.
              apply FloatOrder.ltb_irrefl.
           ++ apply (Hnone doc' w'); [eapply nth_error_In; eassumption|assumption].
        -- intros j doc' w' Hj. lia.
      * right. exists (S i), doc, m. cbn [snd] in Hbelow. repeat split; try assumption.
        -- eapply FloatOrder.ltb_trans; eassumption.
        -- intros [|j] doc' w' Hj Hw'; cbn in Hj.
           ++ injection Hj as <-. rewrite Hw in Hw'. injection Hw' as <-.
              apply FloatOrder.ltb_asym; assumption.
           ++ eapply Hmin; eassumption.
        -- intros [|j] doc' w' Hlt' Hj Hw' Hnum; cbn in Hj.
           ++ injection Hj as <-. rewrite Hw in Hw'. injection Hw' as <-. assumption.
           ++ apply (Hfirst j doc' w'); [lia|assumption|assumption|assumption].
    + destruct (IH _ _ Hrun)
        as [[-> Hnone] | (i & doc & m & Hi & Hm & -> & Hbelow & Hmin & Hfirst)].
      * left. split; [reflexivity|].
        intros doc w' [<-|Hin] Hw'.
        -- rewrite Hw in Hw'. injection Hw' as <-. assumption.
        -- eapply Hnone; eassumption.
      * right. exists (S i), doc, m. repeat split; try assumption.
        -- intros [|j] doc' w' Hj Hw'; cbn in Hj.
           ++ injection Hj as <-. rewrite Hw in Hw'. injection Hw' as <-.
              eapply FloatOrder.ltb_not_below; eassumption.
           ++ eapply Hmin; eassumption.
        -- intros [|j] doc' w' Hlt' Hj Hw' Hnum; cbn in Hj.
           ++ injection Hj as <-. rewrite Hw in Hw'. injection Hw' as <-.
              eapply FloatOrder.ltb_below; eassumption.
           ++ apply (Hfirst j doc' w'); [lia|assumption|assumption|assumption].
Qed.

(** The loop raises the exception of the first candidate whose adjusted
    wait cannot be computed. *)
Lemma loop_raises (front : list DoctorInfo) (doc : DoctorInfo)
    (rest : list DoctorInfo) (e : exn) :
  (forall d, In d front -> exists w, wait_of d = Ok w) ->
  wait_of doc = Raise e ->
  forall acc, for_each step (front ++ doc :: rest) acc = Raise e.
Proof.
  intros Hfront Hdoc. induction front as [|d front IH]; intros acc.
  - cbn [app for_each]. rewrite assign_step_adjusted, Hdoc. reflexivity.
  - cbn [app for_each]. rewrite assign_step_adjusted.
    destruct (Hfront d (or_introl eq_refl)) as (w & ->). cbn [bind].
    apply IH. intros d' Hin. apply Hfront. right. exact Hin.
Qed.

End SelectionAnyEstimator.

Lemma py_int_ok_finite (x : float) (n : Z) : py_int x = Ok n -> is_finite x = true.
Proof. destruct x; cbn; intros H; try reflexivity; discriminate H. Qed.

(** X1.  Whenever [assign_doctor] returns, the id is the id of a candidate
    of the list, never [None]; the wait is [int()] of the adjusted wait of
    that candidate, which is finite; no candidate has a smaller adjusted
    wait and every earlier candidate whose adjusted wait is a number has a
    strictly larger one. *)
Theorem assign_doctor_returns_candidate {L : Libs} (self : QueueMLModel)
    (t1 t2 : datetime) (cands : list DoctorInfo) (patient : Patient)
    (best : option Z) (wait : Z) :
  assign_doctor self t1 t2 cands patient = Ok (best, wait) ->
  exists i doc m,
    nth_error cands i = Some doc /\
    best = Some (doctor_id doc) /\
    adjusted_wait self (dt_hour t1) (weekday t2) doc = Ok m /\
    is_finite m = true /\
    py_int m = Ok wait /\
    (forall j doc' w',
        nth_error cands j = Some doc' ->
        adjusted_wait self (dt_hour t1) (weekday t2) doc' = Ok w' ->
        ltb w' m = false) /\
    (forall j doc' w',
        (j < i)%nat -> nth_error cands j = Some doc' ->
        adjusted_wait self (dt_hour t1) (weekday t2) doc' = Ok w' ->
        is_nan w' = false -> ltb m w' = true).
Proof.
  unfold assign_doctor. intros H.
  apply bind_ok in H. destruct H as ([b mn] & Hrun & H).
  apply bind_ok in H. destruct H as (n & Hint & H). injection H as <- <-.
  destruct (loop_result self (dt_hour t1) (weekday t2) cands _ _ Hrun)
    as [[E _] | (i & doc & m & Hi & Hm & E & _ & Hmin & Hfirst)].
  - injection E as -> ->. discriminate Hint.
  - injection E as -> ->. exists i, doc, m. repeat split; try assumption.
    eapply py_int_ok_finite; eassumption.
Qed.

Lemma assign_doctor_returns_candidate_witness :
  exists i doc m,
    nth_error two_candidates i = Some doc /\
    Some 2 = Some (doctor_id doc) /\
    adjusted_wait (L := toy_libs) toy_model 9 0 doc = Ok m /\
    is_finite m = true /\
    py_int m = Ok 18 /\
    (forall j doc' w',
        nth_error two_candidates j = Some doc' ->
        adjusted_wait (L := toy_libs) toy_model 9 0 doc' = Ok w' ->
        ltb w' m = false) /\
    (forall j doc' w',
        (j < i)%nat -> nth_error two_candidates j = Some doc' ->
        adjusted_wait (L := toy_libs) toy_model 9 0 doc' = Ok w' ->
        is_nan w' = false -> ltb m w' = true).
Proof.
  apply (assign_doctor_returns_candidate (L := toy_libs) toy_model monday_9am monday_9am
           two_candidates (patient_of 40 "") (Some 2) 18).
  vm_compute. reflexivity.
Defined.

(** X2.  When the adjusted wait of a candidate cannot be computed and those
    of the candidates before it can, [assign_doctor] raises the exception of
    that candidate, whatever the candidates after it. *)
Theorem assign_doctor_raises_first {L : Libs} (self : QueueMLModel)
    (t1 t2 : datetime) (front : list DoctorInfo) (doc : DoctorInfo)
    (rest : list DoctorInfo) (patient : Patient) (e : exn) :
  (forall d, In d front ->
             exists w, adjusted_wait self (dt_hour t1) (weekday t2) d = Ok w) ->
  adjusted_wait self (dt_hour t1) (weekday t2) doc = Raise e ->
  assign_doctor self t1 t2 (front ++ doc :: rest) patient = Raise e.
Proof.
  intros Hfront Hdoc. unfold assign_doctor.
  rewrite (loop_raises self _ _ front doc rest e Hfront Hdoc). reflexivity.
Qed.

Lemma assign_doctor_raises_first_witness :
  assign_doctor (L := toy_libs) toy_model monday_9am monday_9am
    ([doctor 1 3 10 5 20] ++ overflowing :: [doctor 2 2 10 18 20]) toy_patient =
  Raise OverflowError.
Proof.
  apply (assign_doctor_raises_first (L := toy_libs) toy_model monday_9am monday_9am
           [doctor 1 3 10 5 20] overflowing [doctor 2 2 10 18 20] toy_patient).
  - intros d [<-|[]]. eexists. vm_compute. reflexivity.
  - vm_compute. reflexivity.
Defined.

(** ** book_appointment *)

Lemma doctor_features_of_nth (today_count : Z -> Z) (available : list Doctor)
    (i : nat) (info : DoctorInfo) :
  nth_error (doctor_features_of today_count available) i = Some info ->
  exists doc, nth_error available i = Some doc /\ doctor_id info = doc_id doc.
Proof.
  unfold doctor_features_of. rewrite nth_error_map.
  destruct (nth_error available i) as [doc|]; cbn; [|discriminate].
  intros H. injection H as <-. exists doc. split; reflexivity.
Qed.

(** X3.  Whenever [book_appointment] assigns, the assigned id is the id of
    a doctor of the table who is available and belongs to the requested
    department, and the priority score is the one of the patient; without a
    patient it answers 404. *)
Theorem book_appointment_assigns_available {L : Libs} (self : QueueMLModel)
    (t1 t2 : datetime) (patient : option Patient) (doctors : list Doctor)
    (today_count : Z -> Z) (department_id : Z)
    (best : option Z) (wait : Z) (priority : float) :
  book_appointment self t1 t2 patient doctors today_count department_id =
    Ok (Assigned best wait priority) ->
  exists doc p,
    In doc doctors /\
    best = Some (doc_id doc) /\
    is_available doc = true /\
    doc_department_id doc = department_id /\
    patient = Some p /\ priority = calculate_priority p.
Proof.
  unfold book_appointment. destruct patient as [p|]; [|discriminate].
  destruct (available_doctors doctors department_id) as [|a rest] eqn:Eav;
    [discriminate|].
  intros H. apply bind_ok in H. destruct H as ([b w] & Hassign & H).
  injection H as <- <- <-.
  unfold assign_doctor in Hassign.
  apply bind_ok in Hassign. destruct Hassign as ([b' mn] & Hrun & Hassign).
  apply bind_ok in Hassign. destruct Hassign as (n & Hint & Hassign).
  injection Hassign as <- <-.
  destruct (loop_result self (dt_hour t1) (weekday t2) _ _ _ Hrun)
    as [[E _] | (i & info & m & Hi & _ & E & _)].
  - injection E as -> ->. discriminate Hint.
  - injection E as -> ->.
    destruct (doctor_features_of_nth _ _ _ _ Hi) as (doc & Hdoc & Hid).
    apply nth_error_In in Hdoc. rewrite <- Eav in Hdoc.
    apply filter_In in Hdoc. destruct Hdoc as [Hin Hcond].
    apply andb_true_iff in Hcond. destruct Hcond as [Hdept Havail].
    exists doc, p. rewrite Hid. repeat split; try assumption.
    apply Z.eqb_eq. assumption.
Qed.

Lemma book_appointment_assigns_available_witness :
  exists doc p,
    In doc clinic /\
    Some 3 = Some (doc_id doc) /\
    is_available doc = true /\
    doc_department_id doc = 1 /\
    Some toy_patient = Some p /\
    S754_finite false 4503599627370496 (-53) = calculate_priority p.
Proof.
  apply (book_appointment_assigns_available (L := toy_libs) toy_model
           monday_9am monday_9am (Some toy_patient) clinic (fun _ => 4) 1
           (Some 3) 11 (S754_finite false 4503599627370496 (-53))).
  vm_compute. reflexivity.
Defined.

(** ** The pickle files *)

Lemma _train_initial_model_synced {L : Libs} (self self' : QueueMLModel) (w w' : World) :
  _train_initial_model self w = Ok (self', w') -> synced self' w'.
Proof.
  unfold _train_initial_model. intros H.
  apply bind_ok in H. destruct H as ([sc Xs] & _ & H).
  apply bind_ok in H. destruct H as (m & _ & H).
  injection H as <- <-. split; reflexivity.
Qed.

Lemma __init___synced {L : Libs} (w w' : World) (self : QueueMLModel) :
  __init__ w = Ok (self, w') -> synced self w'.
Proof.
  unfold __init__, _load_model. intros H.
  destruct w as [mf sf out]. cbn [queue_model_pkl scaler_pkl] in H.
  destruct mf as [| |m], sf as [| |s]; cbn [is_trained negb] in H;
    try (apply _train_initial_model_synced in H; exact H).
  injection H as <- <-. split; reflexivity.
Qed.

Lemma synced_reload {L : Libs} (self : QueueMLModel) (w : World) :
  synced self w ->
  __init__ w = Ok (with_is_trained self true, print "Loaded pre-trained model" w).
Proof.
  intros [Hm Hs]. unfold __init__, _load_model. rewrite Hm, Hs. reflexivity.
Qed.

(** X4.  A construction that succeeds leaves both pickle files holding the
    estimators of the object, and the next construction, on the world it
    left, returns the same object without training: it only prints that it
    loaded the model. *)
Theorem __init___reloads {L : Libs} (w w' : World) (self : QueueMLModel) :
  __init__ w = Ok (self, w') ->
  synced self w' /\
  __init__ w' = Ok (self, print "Loaded pre-trained model" w').
Proof.
  intros H. pose proof (__init___synced w w' self H) as Hsync.
  split; [exact Hsync|]. rewrite (synced_reload self w' Hsync).
  destruct (__init___trained w w' self H) as [Htrained _].
  destruct self as [m s t]. cbn in Htrained. subst t. reflexivity.
Qed.

Lemma __init___reloads_witness :
  synced (L := toy_libs) toy_model toy_world_trained /\
  __init__ (L := toy_libs) toy_world_trained =
    Ok (toy_model, print "Loaded pre-trained model" toy_world_trained).
Proof.
  apply (__init___reloads (L := toy_libs) toy_world toy_world_trained toy_model).
  reflexivity.
Defined.

Lemma update_model_synced {L : Libs} (self self' : QueueMLModel) (w w' : World)
    (appointment_data : list CompletedAppointment) :
  synced self w -> update_model self w appointment_data = Ok (self', w') ->
  synced self' w'.
Proof.
  intros Hsync. rewrite update_model_equation.
  destruct (List.length appointment_data <? 50)%nat.
  - intros H. injection H as <- <-. exact Hsync.
  - intros H. apply bind_ok in H. destruct H as ([sc Xs] & _ & H).
    apply bind_ok in H. destruct H as (m & _ & H).
    injection H as <- <-. split; reflexivity.
Qed.

Lemma update_model_retrained_synced {L : Libs} (self self' : QueueMLModel) (w w' : World)
    (appointment_data : list CompletedAppointment) :
  (50 <= List.length appointment_data)%nat ->
  update_model self w appointment_data = Ok (self', w') -> synced self' w'.
Proof.
  intros Hlen. rewrite update_model_equation.
  apply Nat.ltb_ge in Hlen. rewrite Hlen.
  intros H. apply bind_ok in H. destruct H as ([sc Xs] & _ & H).
  apply bind_ok in H. destruct H as (m & _ & H).
  injection H as <- <-. split; reflexivity.
Qed.

(** X5.  An update that retrains (50 samples or more) writes the retrained
    estimators to the pickle files: a construction on the world it leaves
    loads exactly these estimators, with the flag set.  An update on fewer
    samples writes nothing. *)
Theorem update_model_persists {L : Libs} (self self' : QueueMLModel) (w w' : World)
    (appointment_data : list CompletedAppointment) :
  update_model self w appointment_data = Ok (self', w') ->
  ((50 <= List.length appointment_data)%nat ->
   __init__ w' = Ok (with_is_trained self' true, print "Loaded pre-trained model" w')) /\
  ((List.length appointment_data < 50)%nat -> w' = w).
Proof.
  intros H. split.
  - intros Hlen. apply synced_reload.
    eapply update_model_retrained_synced; eassumption.
  - intros Hlen. rewrite update_model_equation in H.
    apply Nat.ltb_lt in Hlen. rewrite Hlen in H. injection H as _ <-. reflexivity.
Qed.

Lemma update_model_persists_witness :
  __init__ (L := toy_libs) toy_world_updated =
    Ok (with_is_trained toy_untrained true,
        print "Loaded pre-trained model" toy_world_updated).
Proof.
  apply (proj1 (update_model_persists (L := toy_libs) toy_unfitted toy_untrained
                  toy_world toy_world_updated (batch_of 50) eq_refl)).
  vm_compute. lia.
Defined.

Lemma update_model_keeps_trained {L : Libs} (self self' : QueueMLModel) (w w' : World)
    (appointment_data : list CompletedAppointment) :
  update_model self w appointment_data = Ok (self', w') ->
  is_trained self' = is_trained self /\
  (is_fitted (scaler self) = true -> is_fitted (scaler self') = true) /\
  (is_fitted (wait_time_model self) = true -> is_fitted (wait_time_model self') = true).
Proof.
  rewrite update_model_equation. destruct (List.length appointment_data <? 50)%nat.
  - intros H. injection H as <- <-. repeat split; auto.
  - intros H. apply bind_ok in H. destruct H as ([sc Xs] & Hsc & H).
    apply bind_ok in H. destruct H as (m & Hm & H).
    injection H as <- <-. apply fit_transform_fitted in Hsc. apply fit_fitted in Hm.
    repeat split; auto.
Qed.

(** X6.  After a construction on pickle files that hold fitted estimators,
    and after any number of updates that succeed, the flag is set, both
    estimators are fitted and the pickle files hold them. *)
Theorem object_life_invariant {L : Libs} (w0 w w' : World) (self self' : QueueMLModel)
    (batches : list (list CompletedAppointment)) :
  pickles_fitted w0 ->
  __init__ w0 = Ok (self, w) ->
  update_models self w batches = Ok (self', w') ->
  is_trained self' = true /\
  is_fitted (scaler self') = true /\
  is_fitted (wait_time_model self') = true /\
  synced self' w'.
Proof.
  intros Hdisk Hinit.
  destruct (__init___trained w0 w self Hinit) as [Htrained Hfit].
  destruct (Hfit Hdisk) as (Hs & Hm & _).
  pose proof (__init___synced w0 w self Hinit) as Hsync.
  clear Hinit Hfit Hdisk. revert self w Htrained Hs Hm Hsync.
  induction batches as [|batch rest IH]; intros self w Htrained Hs Hm Hsync Hrun.
  - cbn in Hrun. injection Hrun as <- <-. auto.
  - cbn [update_models] in Hrun. apply bind_ok in Hrun.
    destruct Hrun as ([self1 w1] & Hup & Hrun).
    destruct (update_model_keeps_trained _ _ _ _ _ Hup) as (Ht & Hs1 & Hm1).
    apply (IH self1 w1); auto.
    + congruence.
    + eapply update_model_synced; eassumption.
Qed.

Lemma object_life_invariant_witness :
  is_trained (with_is_trained toy_untrained true) = true /\
  is_fitted (scaler (with_is_trained toy_untrained true)) = true /\
  is_fitted (wait_time_model (with_is_trained toy_untrained true)) = true /\
  synced (L := toy_libs) (with_is_trained toy_untrained true)
    (print "Model updated with 50 new data points" toy_world_trained).
Proof.
  apply (object_life_invariant (L := toy_libs) toy_world toy_world_trained
           (print "Model updated with 50 new data points" toy_world_trained)
           toy_model (with_is_trained toy_untrained true)
           [batch_of 49; batch_of 50]).
  - split; intros x H; discriminate H.
  - reflexivity.
  - reflexivity.
Defined.



(** ** predict_department_load *)

Lemma sum_of_from (f : DoctorInfo -> Z) (doctors_data : list DoctorInfo) (start : Z) :
  fold_left (fun total doc => total + f doc) doctors_data start =
  start + sum_of f doctors_data.
Proof.
  unfold sum_of. revert start.
  induction doctors_data as [|d rest IH]; intros start; cbn [fold_left]; [lia|].
  rewrite (IH (start + f d)), (IH (0 + f d)). lia.
Qed.

Lemma sum_of_cons (f : DoctorInfo -> Z) (d : DoctorInfo) (rest : list DoctorInfo) :
  sum_of f (d :: rest) = f d + sum_of f rest.
Proof. unfold sum_of at 1. cbn [fold_left]. rewrite sum_of_from. lia. Qed.

Lemma sum_of_permutation (f : DoctorInfo -> Z) (l l' : list DoctorInfo) :
  Permutation l l' -> sum_of f l = sum_of f l'.
Proof.
  induction 1 as [|d l l' _ IH|d d' l|l l' l'' _ IH1 _ IH2].
  - reflexivity.
  - rewrite !sum_of_cons, IH. reflexivity.
  - rewrite !sum_of_cons. lia.
  - congruence.
Qed.

(** The result as a function of the three sums and of the number of
    doctors. *)
Lemma predict_department_load_sums (department_id : Z) (doctors_data : list DoctorInfo) :
  predict_department_load department_id doctors_data =
  (avg_wait <-
     (if (List.length doctors_data =? 0)%nat then Ok (Int 0)
      else q <- int_truediv
                  (sum_of (fun doc => current_queue doc * avg_consultation_time doc)
                     doctors_data)
                  (Z.of_nat (List.length doctors_data)) ;;
           Ok (Flt q)) ;;
   utilization <-
     (if 0 <? sum_of max_capacity doctors_data
      then q <- int_truediv (sum_of current_queue doctors_data)
                  (sum_of max_capacity doctors_data) ;;
           Ok (Flt (mul q f100_0))
      else Ok (Int 0)) ;;
   capacity <- float_of_int (sum_of max_capacity doctors_data) ;;
   Ok {| total_queue := sum_of current_queue doctors_data;
         capacity_utilization := utilization;
         avg_wait_time := avg_wait;
         recommendation :=
           if int_lt_float (sum_of current_queue doctors_data) (mul capacity f0_7)
           then "optimal" else "high_load" |}).
Proof. destruct doctors_data; reflexivity. Qed.

(** X8.  [predict_department_load] depends neither on the order of the
    doctors nor on the department id. *)
Theorem predict_department_load_permutation (department_id department_id' : Z)
    (doctors_data doctors_data' : list DoctorInfo) :
  Permutation doctors_data doctors_data' ->
  predict_department_load department_id doctors_data =
  predict_department_load department_id' doctors_data'.
Proof.
  intros Hperm. rewrite !predict_department_load_sums.
  rewrite (sum_of_permutation current_queue _ _ Hperm).
  rewrite (sum_of_permutation max_capacity _ _ Hperm).
  rewrite (sum_of_permutation
             (fun doc => current_queue doc * avg_consultation_time doc) _ _ Hperm).
  rewrite (Permutation_length Hperm). reflexivity.
Qed.

Lemma predict_department_load_permutation_witness :
  predict_department_load 1 three_doctors =
  predict_department_load 2 (rev three_doctors).
Proof.
  apply predict_department_load_permutation. apply Permutation_rev.
Defined.

Module Sign.

Import Rounding.

Lemma shr_nonneg (mrs : shr_record) (e n : Z) :
  0 <= shr_m mrs -> 0 <= shr_m (fst (shr mrs e n)).
Proof.
  intros Hpos. unfold shr. destruct n as [|p|p]; cbn [fst]; try assumption.
  apply (iter_pos_shr_1 (fun _ r => 0 <= shr_m r)) with (j := Zpos p);
    [|lia|assumption].
  intros j r _ Hr. apply (shr_1_spec r Hr).
Qed.

Lemma shr_fexp_nonneg (m e : Z) (l : location) :
  0 <= m -> 0 <= shr_m (fst (shr_fexp prec emax m e l)).
Proof.
  intros Hm. unfold shr_fexp. apply shr_nonneg. rewrite shr_m_of_loc. exact Hm.
Qed.

(** Rounding a non-negative mantissa keeps the sign it is given. *)
Lemma binary_round_aux_sign (s : bool) (mx ex : Z) (lx : location) :
  0 <= mx -> has_sign s (binary_round_aux prec emax s mx ex lx).
Proof.
  intros Hmx. unfold binary_round_aux.
  pose proof (shr_fexp_nonneg mx ex lx Hmx) as H1.
  destruct (shr_fexp prec emax mx ex lx) as [mrs1 e1]. cbn [fst] in H1.
  pose proof (round_nearest_even_bounds (shr_m mrs1) (loc_of_shr_record mrs1)) as Hr.
  pose proof (shr_fexp_nonneg _ e1 loc_Exact (proj1 (conj (Z.le_trans _ _ _ H1 (proj1 Hr)) I)))
    as H2.
  destruct (shr_fexp prec emax _ e1 loc_Exact) as [mrs2 e2]. cbn [fst] in H2.
  destruct (shr_m mrs2) as [|m|m]; [reflexivity| |lia].
  destruct (e2 <=? emax - prec); reflexivity.
Qed.

Lemma of_ratio_sign (z : Z) : z <= 0 -> z <> 0 -> has_sign true (of_ratio z 1).
Proof.
  intros Hle Hne. destruct z as [|p|p]; [congruence|lia|].
  unfold of_ratio, SFdiv, SFdiv_core_binary.
  set (m' := match _ with Z.pos _ => _ | 0 => _ | Z.neg _ => _ end).
  assert (Hm' : 0 <= m').
  { subst m'. destruct (_ - _ - _) as [|q|q]; [lia| |lia].
    apply Z.shiftl_nonneg. lia. }
  pose proof (Z_div_mod m' 1 ltac:(lia)) as Hdiv.
  destruct (Z.div_eucl m' 1) as [quo r]. cbn [xorb].
  apply binary_round_aux_sign. lia.
Qed.

(** A float that is not positive, times 0.7, is not positive. *)
Lemma mul_f0_7_sign (x : float) : has_sign true x -> has_sign true (mul x f0_7).
Proof.
  destruct x as [s|s| |s m e]; cbn [has_sign]; try contradiction; intros ->.
  - reflexivity.
  - reflexivity.
  - unfold mul, f0_7, SFmul. cbn [xorb]. apply binary_round_aux_sign. lia.
Qed.

Lemma int_lt_float_sign (z : Z) (x : float) :
  0 <= z -> has_sign true x -> int_lt_float z x = false.
Proof.
  intros Hz. destruct x as [s|s| |s m e]; cbn [has_sign int_lt_float];
    try contradiction; intros ->.
  - apply Z.ltb_ge. exact Hz.
  - reflexivity.
  - destruct (0 <=? e) eqn:He; apply Z.ltb_ge.
    + assert (0 < 2 ^ e) by (apply Z.pow_pos_nonneg; lia). nia.
    + assert (0 < 2 ^ (- e)) by (apply Z.pow_pos_nonneg; lia). nia.
Qed.

End Sign.

(** X9.  A department without doctors is reported with zero utilization,
    zero average wait and the recommendation "high_load"; more generally,
    whenever the total capacity is not positive and the total queue is not
    negative, a result has utilization 0 (the int) and recommendation
    "high_load". *)
Theorem predict_department_load_no_capacity (department_id : Z)
    (doctors_data : list DoctorInfo) :
  predict_department_load department_id [] =
    Ok {| total_queue := 0; capacity_utilization := Int 0; avg_wait_time := Int 0;
          recommendation := "high_load" |} /\
  (sum_of max_capacity doctors_data <= 0 ->
   0 <= sum_of current_queue doctors_data ->
   forall load,
     predict_department_load department_id doctors_data = Ok load ->
     capacity_utilization load = Int 0 /\ recommendation load = "high_load"%string).
Proof.
  split; [reflexivity|].
  intros Hcap Hqueue load. rewrite predict_department_load_sums.
  replace (0 <? sum_of max_capacity doctors_data) with false
    by (symmetry; apply Z.ltb_ge; assumption).
  intros H. apply bind_ok in H. destruct H as (avg & _ & H).
  cbn [bind] in H. apply bind_ok in H. destruct H as (capacity & Hc & H).
  injection H as <-. cbn [capacity_utilization recommendation].
  split; [reflexivity|].
  assert (Hsign : has_sign true (mul capacity f0_7) \/
                  mul capacity f0_7 = S754_zero false).
  { unfold float_of_int in Hc.
    destruct (Z.eq_dec (sum_of max_capacity doctors_data) 0) as [E|E].
    - rewrite E in Hc. cbn in Hc. injection Hc as <-. right. reflexivity.
    - left. apply Sign.mul_f0_7_sign.
      pose proof (Sign.of_ratio_sign _ Hcap E) as Hs.
      destruct (of_ratio (sum_of max_capacity doctors_data) 1);
        try discriminate Hc; injection Hc as <-; exact Hs. }
  destruct Hsign as [Hs | ->].
  - rewrite (Sign.int_lt_float_sign _ _ Hqueue Hs). reflexivity.
  - cbn [int_lt_float].
    replace (sum_of current_queue doctors_data <? 0) with false
      by (symmetry; apply Z.ltb_ge; assumption).
    reflexivity.
Qed.

Lemma predict_department_load_no_capacity_witness :
  capacity_utilization
    {| total_queue := 5; capacity_utilization := Int 0;
       avg_wait_time := Flt (S754_finite false 7036874417766400 (-48));
       recommendation := "high_load" |} = Int 0 /\
  recommendation
    {| total_queue := 5; capacity_utilization := Int 0;
       avg_wait_time := Flt (S754_finite false 7036874417766400 (-48));
       recommendation := "high_load" |} = "high_load"%string.
Proof.
  apply (proj2 (predict_department_load_no_capacity 1 no_capacity)).
  - vm_compute. discriminate.
  - vm_compute. discriminate.
  - vm_compute. reflexivity.
Defined.

Lemma int_truediv_raises (a b : Z) (e : exn) :
  b <> 0 -> int_truediv a b = Raise e -> e = OverflowError.
Proof.
  intros Hb. unfold int_truediv.
  replace (b =? 0) with false by (symmetry; apply Z.eqb_neq; assumption).
  destruct (of_ratio a b); intros H; try discriminate H. injection H as <-. reflexivity.
Qed.

Lemma float_of_int_raises (z : Z) (e : exn) :
  float_of_int z = Raise e -> e = OverflowError.
Proof.
  unfold float_of_int.
  destruct (of_ratio z 1); intros H; try discriminate H. injection H as <-. reflexivity.
Qed.

(** X10.  [predict_department_load] never divides by zero: the only
    exception it can raise is the OverflowError of an int too large for a
    float. *)
Theorem predict_department_load_raises (department_id : Z)
    (doctors_data : list DoctorInfo) (e : exn) :
  predict_department_load department_id doctors_data = Raise e ->
  e = OverflowError.
Proof.
  rewrite predict_department_load_sums.
  destruct (List.length doctors_data =? 0)%nat eqn:Elen.
  - cbn [bind].
    destruct (0 <? sum_of max_capacity doctors_data) eqn:Ecap.
    + destruct (int_truediv _ _) as [q|e'] eqn:Ediv.
      * cbn [bind]. destruct (float_of_int _) as [c|e'] eqn:Ec; cbn [bind].
        -- discriminate.
        -- intros H. injection H as <-. eapply float_of_int_raises; eassumption.
      * cbn [bind]. intros H. injection H as <-.
        apply Z.ltb_lt in Ecap. eapply int_truediv_raises; [|eassumption]. lia.
    + cbn [bind]. destruct (float_of_int _) as [c|e'] eqn:Ec; cbn [bind].
      * discriminate.
      * intros H. injection H as <-. eapply float_of_int_raises; eassumption.
  - apply Nat.eqb_neq in Elen.
    destruct (int_truediv _ (Z.of_nat _)) as [q0|e0] eqn:Eavg.
    + cbn [bind].
      destruct (0 <? sum_of max_capacity doctors_data) eqn:Ecap.
      * destruct (int_truediv (sum_of current_queue doctors_data) _) as [q|e'] eqn:Ediv.
        -- cbn [bind]. destruct (float_of_int _) as [c|e'] eqn:Ec; cbn [bind].
           ++ discriminate.
           ++ intros H. injection H as <-. eapply float_of_int_raises; eassumption.
        -- cbn [bind]. intros H. injection H as <-.
           apply Z.ltb_lt in Ecap. eapply int_truediv_raises; [|eassumption]. lia.
      * cbn [bind]. destruct (float_of_int _) as [c|e'] eqn:Ec; cbn [bind].
        -- discriminate.
        -- intros H. injection H as <-. eapply float_of_int_raises; eassumption.
    + cbn [bind]. intros H. injection H as <-.
      eapply int_truediv_raises; [|eassumption]. lia.
Qed.

Lemma predict_department_load_raises_witness :
  predict_department_load 1 huge_capacity = Raise OverflowError /\
  OverflowError = OverflowError.
Proof.
  split; [vm_compute; reflexivity|].
  apply (predict_department_load_raises 1 huge_capacity OverflowError).
  vm_compute. reflexivity.
Defined.

(** ** calculate_priority and the text of the history *)

Lemma lower_app (a b : string) : lower (a ++ b) = (lower a ++ lower b)%string.
Proof. induction a as [|c a IH]; cbn; [reflexivity|]. rewrite IH. reflexivity. Qed.

Lemma prefix_app (k s t : string) : prefix k s = true -> prefix k (s ++ t) = true.
Proof.
  revert s. induction k as [|a k IH]; intros s.
  - intros _. destruct (s ++ t)%string; reflexivity.
  - destruct s as [|b s]; cbn; [discriminate|].
    destruct (ascii_dec a b); [apply IH|discriminate].
Qed.

Lemma contains_app_r (k s t : string) :
  contains k s = true -> contains k (s ++ t) = true.
Proof.
  induction s as [|c s IH].
  - cbn [contains]. destruct (prefix k EmptyString) eqn:E; [|discriminate].
    intros _. destruct k; [|discriminate E]. destruct t; reflexivity.
  - cbn [contains append]. destruct (prefix k (String c s)) eqn:E.
    + intros _. change (String c (s ++ t)) with (String c s ++ t)%string.
      rewrite (prefix_app _ _ t E). reflexivity.
    + intros H. rewrite (IH H). destruct (prefix k (String c (s ++ t))); reflexivity.
Qed.

Lemma contains_app_l (k s t : string) :
  contains k s = true -> contains k (t ++ s) = true.
Proof.
  intros H. induction t as [|c t IH]; [exact H|].
  cbn [append contains]. rewrite IH.
  destruct (prefix k (String c (t ++ s))); reflexivity.
Qed.

Lemma keyword_matches_extended (h before after : string) :
  keyword_matches (Some h) = true ->
  keyword_matches (Some (before ++ h ++ after)%string) = true.
Proof.
  unfold keyword_matches. rewrite !existsb_exists.
  intros (k & Hin & Hk). exists k. split; [exact Hin|].
  rewrite !lower_app. apply contains_app_l, contains_app_r, Hk.
Qed.

(** X11.  The priority score ignores the case of the history: two
    histories equal up to the case of their letters give the same score. *)
Theorem calculate_priority_ignores_case (years : Z) (h1 h2 : string) :
  lower h1 = lower h2 ->
  calculate_priority {| age := years; medical_history := Some h1 |} =
  calculate_priority {| age := years; medical_history := Some h2 |}.
Proof.
  intros Hlow. unfold calculate_priority. rewrite !raw_priority_cases.
  cbn [age medical_history keyword_matches]. rewrite Hlow. reflexivity.
Qed.

Lemma calculate_priority_ignores_case_witness :
  calculate_priority {| age := 70; medical_history := Some "Chest Pain"%string |} =
  calculate_priority {| age := 70; medical_history := Some "CHEST PAIN"%string |}.
Proof.
  apply calculate_priority_ignores_case. reflexivity.
Defined.

(** X12.  Text added before or after the history never lowers the priority
    score. *)
Theorem calculate_priority_history_grows (years : Z) (h before after : string) :
  leb (calculate_priority {| age := years; medical_history := Some h |})
      (calculate_priority
         {| age := years; medical_history := Some (before ++ h ++ after)%string |})
  = true.
Proof.
  unfold calculate_priority. rewrite !raw_priority_cases.
  cbn [age medical_history]. unfold age_bonus.
  pose proof (keyword_matches_extended h before after) as Hext.
  destruct (keyword_matches (Some h)).
  - rewrite (Hext eq_refl).
    destruct (65 <? years), (years <? 5); vm_compute; reflexivity.
  - destruct (keyword_matches (Some (before ++ h ++ after)%string));
      destruct (65 <? years), (years <? 5); vm_compute; reflexivity.
Qed.

(** ** The views that keep the queue *)

Lemma find_map_key {A : Type} (key : A -> Z) (h : A -> A) (id : Z) (rows : list A) :
  (forall a, key (h a) = key a) ->
  find (fun a => key a =? id) (map h rows) =
  option_map h (find (fun a => key a =? id) rows).
Proof.
  intros Hkey. induction rows as [|a rows IH]; [reflexivity|].
  cbn [map find]. rewrite Hkey. destruct (key a =? id); [reflexivity|exact IH].
Qed.

Lemma find_key {A : Type} (key : A -> Z) (id : Z) (rows : list A) (a : A) :
  find (fun a => key a =? id) rows = Some a -> key a = id /\ In a rows.
Proof.
  intros H. apply find_some in H. destruct H as [Hin Hk].
  split; [apply Z.eqb_eq; exact Hk|exact Hin].
Qed.

(** X13.  After [call_patient] on an appointment that exists, the only
    appointments of its doctor that are in progress are those of the called
    id; the called appointment is in progress, with [called_at] set to the
    time of the call; the doctor table is as before.  On an id that names no
    appointment the reply is 404 and the database is as before. *)
Theorem call_patient_single_in_progress (db : Db) (now : datetime) (appointment_id : Z) :
  (get_appointment db appointment_id = None ->
   call_patient db now appointment_id = (db, Reply404 "Appointment not found"%string)) /\
  (forall appointment,
      get_appointment db appointment_id = Some appointment ->
      let db' := fst (call_patient db now appointment_id) in
      (forall a, In a (db_appointments db') ->
                 a_doctor_id a = a_doctor_id appointment ->
                 a_status a = "in-progress"%string ->
                 a_id a = appointment_id) /\
      get_appointment db' appointment_id =
        Some (with_called_at now (with_status "in-progress" appointment)) /\
      db_doctors db' = db_doctors db /\
      db_patients db' = db_patients db).
Proof.
  split.
  - intros Hnone. unfold call_patient. rewrite Hnone. reflexivity.
  - intros appointment Hget db'.
    assert (Hdb' : db_appointments db' =
                   change_appointment appointment_id
                     (fun a => with_called_at now (with_status "in-progress" a))
                     (map (fun a =>
                             if (a_doctor_id a =? a_doctor_id appointment)
                                && String.eqb (a_status a) "in-progress"
                                && negb (a_id a =? appointment_id)
                             then with_status "waiting" a else a)
                        (db_appointments db)) /\
                   db_doctors db' = db_doctors db /\ db_patients db' = db_patients db).
    { subst db'. unfold call_patient. rewrite Hget.
      destruct (get_patient_row db (a_patient_id appointment)); repeat split. }
    destruct Hdb' as (Happ & Hdoc & Hpat).
    split; [|split; [|split; assumption]].
    + intros a Hin Hdoctor Hstatus. rewrite Happ in Hin.
      unfold change_appointment in Hin. rewrite map_map in Hin.
      apply in_map_iff in Hin. destruct Hin as (a0 & Ha & _).
      destruct ((a_doctor_id a0 =? a_doctor_id appointment)
                && String.eqb (a_status a0) "in-progress"
                && negb (a_id a0 =? appointment_id)) eqn:Econd.
      * cbn [a_id with_status] in Ha.
        apply andb_true_iff in Econd. destruct Econd as [_ Hid].
        apply negb_true_iff in Hid. rewrite Hid in Ha. subst a.
        cbn in Hstatus. discriminate Hstatus.
      * destruct (a_id a0 =? appointment_id) eqn:Eid.
        -- subst a. cbn. apply Z.eqb_eq. exact Eid.
        -- subst a. apply Z.eqb_eq in Hdoctor.
           apply String.eqb_eq in Hstatus.
           rewrite Hdoctor, Hstatus in Econd. discriminate Econd.
    + unfold get_appointment. rewrite Happ. unfold change_appointment.
      rewrite map_map.
      rewrite (find_map_key a_id _ appointment_id (db_appointments db)).
      * unfold get_appointment in Hget. rewrite Hget. cbn [option_map].
        destruct (find_key a_id _ _ _ Hget) as [Hid _].
        assert (Hself : negb (a_id appointment =? appointment_id) = false)
          by (rewrite Hid, Z.eqb_refl; reflexivity).
        rewrite Hself, andb_false_r, Hid, Z.eqb_refl. reflexivity.
      * intros a.
        destruct ((a_doctor_id a =? a_doctor_id appointment)
                  && String.eqb (a_status a) "in-progress"
                  && negb (a_id a =? appointment_id));
          cbn [with_status a_id]; destruct (a_id a =? appointment_id); reflexivity.
Qed.

Lemma call_patient_single_in_progress_witness :
  call_patient toy_db monday_9am 7 = (toy_db, Reply404 "Appointment not found"%string) /\
  get_appointment (fst (call_patient toy_db next_monday_9am 2)) 2 =
    Some (with_called_at next_monday_9am
            (with_status "in-progress" (toy_appointment_row 2 3 "waiting"%string))).
Proof.
  split.
  - apply (proj1 (call_patient_single_in_progress toy_db monday_9am 7)). reflexivity.
  - apply (proj2 (call_patient_single_in_progress toy_db next_monday_9am 2)
             (toy_appointment_row 2 3 "waiting"%string) eq_refl).
Defined.

Lemma change_doctor_not_negative (id : Z) (rows : list Doctor) :
  (forall d, In d rows -> 0 <= current_queue_count d) ->
  forall d, In d (change_doctor id leave_queue rows) -> 0 <= current_queue_count d.
Proof.
  intros Hrows d Hin. unfold change_doctor in Hin.
  apply in_map_iff in Hin. destruct Hin as (d0 & <- & Hin0).
  destruct (doc_id d0 =? id); [cbn; lia|apply Hrows; exact Hin0].
Qed.

(** X14.  None of the three views drives a queue count below zero: when no
    queue count is negative before [update_appointment_status],
    [complete_appointment] or [call_patient], none is after it, whatever
    the reply. *)
Theorem views_keep_queues_not_negative (db : Db) (now : datetime)
    (appointment_id : Z) (status : option string) :
  queues_not_negative db ->
  queues_not_negative (fst (update_appointment_status db appointment_id status)) /\
  queues_not_negative (fst (complete_appointment db now appointment_id)) /\
  queues_not_negative (fst (call_patient db now appointment_id)).
Proof.
  intros Hdb. split; [|split].
  - unfold update_appointment_status.
    destruct (get_appointment db appointment_id) as [appointment|]; [|exact Hdb].
    destruct status as [new_status|]; [|exact Hdb].
    destruct (String.eqb new_status "completed"
              && negb (String.eqb (a_status appointment) "completed")).
    + destruct (get_doctor db (a_doctor_id appointment)) as [doctor|]; [|exact Hdb].
      cbn [fst]. unfold queues_not_negative. cbn [db_doctors].
      apply change_doctor_not_negative. exact Hdb.
    + exact Hdb.
  - unfold complete_appointment.
    destruct (get_appointment db appointment_id) as [appointment|]; [|exact Hdb].
    destruct (match a_called_at appointment with
              | Some called => _
              | None => _
              end) as [wait|e]; [|exact Hdb].
    destruct (get_doctor db (a_doctor_id appointment)) as [doctor|]; [|exact Hdb].
    cbn [fst]. unfold queues_not_negative. cbn [db_doctors].
    apply change_doctor_not_negative. exact Hdb.
  - unfold call_patient.
    destruct (get_appointment db appointment_id) as [appointment|]; [|exact Hdb].
    destruct (get_patient_row db (a_patient_id appointment)); exact Hdb.
Qed.

Lemma views_keep_queues_not_negative_witness :
  queues_not_negative (fst (update_appointment_status toy_db 3 (Some "completed"%string))) /\
  queues_not_negative (fst (complete_appointment toy_db next_monday_9am 3)) /\
  queues_not_negative (fst (call_patient toy_db next_monday_9am 3)).
Proof.
  apply views_keep_queues_not_negative.
  intros d [<-|[<-|[<-|[]]]]; cbn; lia.
Defined.


Lemma get_changed_appointment (db : Db) (id : Z) (change : AppointmentRow -> AppointmentRow)
    (appointment : AppointmentRow) :
  (forall a, a_id (change a) = a_id a) ->
  get_appointment db id = Some appointment ->
  find (fun a => a_id a =? id) (change_appointment id change (db_appointments db)) =
  Some (change appointment).
Proof.
  intros Hkeep Hget. unfold change_appointment.
  rewrite (find_map_key a_id _ id).
  - unfold get_appointment in Hget. rewrite Hget. cbn [option_map].
    destruct (find_key a_id _ _ _ Hget) as [-> _]. rewrite Z.eqb_refl. reflexivity.
  - intros a. destruct (a_id a =? id); [apply Hkeep|reflexivity].
Qed.

Lemma get_changed_doctor (db : Db) (doctor : Doctor) (id : Z) :
  get_doctor db id = Some doctor ->
  find (fun d => doc_id d =? id) (change_doctor (doc_id doctor) leave_queue (db_doctors db)) =
  Some (leave_queue doctor).
Proof.
  intros Hget. unfold change_doctor.
  rewrite (find_map_key doc_id _ id).
  - unfold get_doctor in Hget. rewrite Hget. cbn [option_map].
    rewrite Z.eqb_refl. reflexivity.
  - intros d. destruct (doc_id d =? doc_id doctor); reflexivity.
Qed.


(** X16.  [complete_appointment] does not look at the status the
    appointment had: each call that succeeds takes one more patient off the
    queue count of the doctor, so that completing the same appointment twice
    lowers the count twice, down to zero, and replies the same wait. *)
Theorem complete_appointment_decrements_again (db db1 : Db) (now later : datetime)
    (appointment_id : Z) (appointment : AppointmentRow) (doctor : Doctor)
    (wait : option Z) :
  get_appointment db appointment_id = Some appointment ->
  get_doctor db (a_doctor_id appointment) = Some doctor ->
  complete_appointment db now appointment_id = (db1, Reply200 wait) ->
  get_doctor db1 (a_doctor_id appointment) = Some (leave_queue doctor) /\
  exists db2,
    complete_appointment db1 later appointment_id = (db2, Reply200 wait) /\
    get_doctor db2 (a_doctor_id appointment) = Some (leave_queue (leave_queue doctor)).
Proof.
  intros Hget Hdoc. unfold complete_appointment at 1. rewrite Hget.
  destruct (match a_called_at appointment with
            | Some called => _
            | None => _
            end) as [w|e] eqn:Hwait; [|discriminate].
  rewrite Hdoc. intros H. injection H as <- <-.
  assert (Hdoc1 : forall appointments,
             get_doctor
               {| db_patients := db_patients db;
                  db_doctors := change_doctor (doc_id doctor) leave_queue (db_doctors db);
                  db_appointments := appointments |} (a_doctor_id appointment) =
             Some (leave_queue doctor)).
  { intros appointments. unfold get_doctor at 1. cbn [db_doctors].
    apply get_changed_doctor. exact Hdoc. }
  split; [apply Hdoc1|].
  unfold complete_appointment. unfold get_appointment at 1. cbn [db_appointments].
  rewrite (get_changed_appointment db appointment_id (with_completed now w) appointment
             ltac:(reflexivity) Hget).
  cbn [a_called_at a_appointment_date a_actual_wait_time a_doctor_id with_completed].
  assert (Hsame : match a_called_at appointment with
                  | Some called =>
                      w0 <- wait_minutes called (a_appointment_date appointment) ;;
                      Ok (Some w0)
                  | None => Ok w
                  end = Ok w).
  { destruct (a_called_at appointment); [exact Hwait|reflexivity]. }
  rewrite Hsame, Hdoc1. eexists. split; [reflexivity|].
  unfold get_doctor. cbn [db_doctors].
  change (doc_id (leave_queue doctor)) with (doc_id doctor).
  unfold change_doctor. rewrite map_map.
  rewrite (find_map_key doc_id _ (a_doctor_id appointment)).
  - unfold get_doctor in Hdoc. rewrite Hdoc. cbn [option_map].
    destruct (find_key doc_id _ _ _ Hdoc) as [Hid _].
    rewrite Z.eqb_refl. cbn [leave_queue doc_id]. rewrite Z.eqb_refl. reflexivity.
  - intros d. destruct (doc_id d =? doc_id doctor) eqn:E;
      cbn [leave_queue doc_id]; rewrite E; reflexivity.
Qed.


(** The count of a doctor with two patients goes 2, 1, 0. *)
Lemma complete_appointment_decrements_again_witness :
  get_doctor busy_db 4 = Some (busy_doctor 2) /\
  get_doctor (fst (complete_appointment busy_db monday_9am 7)) 4 = Some (busy_doctor 1) /\
  exists db2,
    complete_appointment (fst (complete_appointment busy_db monday_9am 7))
      next_monday_9am 7 = (db2, Reply200 None) /\
    get_doctor db2 4 = Some (busy_doctor 0).
Proof.
  split; [reflexivity|].
  exact (complete_appointment_decrements_again busy_db _ monday_9am next_monday_9am 7
           (toy_appointment_row 7 4 "in-progress"%string) (busy_doctor 2) None
           eq_refl eq_refl eq_refl).
Defined.

(** ** register_patient and get_patient *)

Lemma find_last {A : Type} (f : A -> bool) (rows : list A) (x : A) :
  find f (rows ++ [x]) =
  match find f rows with
  | Some y => Some y
  | None => if f x then Some x else None
  end.
Proof.
  induction rows as [|a rows IH]; cbn [app find]; [reflexivity|].
  destruct (f a); [reflexivity|exact IH].
Qed.

(** X17.  A patient that [register_patient] accepts is the one
    [get_patient] then returns under its id, which named no patient before;
    the other ids name the patients they named; and a second registration
    under the same id is refused with a 400 that leaves the database as it
    is. *)
Theorem register_patient_then_get (db db' : Db) (data : PatientForm)
    (patient : PatientRow) :
  register_patient db data = (db', Reply200 patient) ->
  form_id data = Some (p_id patient) /\
  get_patient db (p_id patient) = Reply404 "Patient not found"%string /\
  get_patient db' (p_id patient) = Reply200 patient /\
  (forall id, id <> p_id patient -> get_patient db' id = get_patient db id) /\
  register_patient db' data = (db', Reply400 "Patient ID already exists"%string).
Proof.
  unfold register_patient at 1.
  destruct (form_id data) as [id|] eqn:Eid; [|discriminate].
  destruct (get_patient_row db id) as [old|] eqn:Eold; [discriminate|].
  destruct (form_name data) as [name|]; [|discriminate].
  destruct (form_age data) as [years|]; [|discriminate].
  destruct (form_gender data) as [gender|]; [|discriminate].
  destruct (form_phone data) as [phone|]; [|discriminate].
  intros H. injection H as <- <-. cbn [p_id].
  assert (Hnew : get_patient_row
                   {| db_patients :=
                        db_patients db ++
                        [{| p_id := id; p_name := name; p_age := years;
                            p_gender := gender; p_phone := phone;
                            p_email := Some (get_or_empty (form_email data));
                            p_medical_history :=
                              Some (get_or_empty (form_medical_history data)) |}];
                      db_doctors := db_doctors db;
                      db_appointments := db_appointments db |} id =
                 Some {| p_id := id; p_name := name; p_age := years;
                         p_gender := gender; p_phone := phone;
                         p_email := Some (get_or_empty (form_email data));
                         p_medical_history :=
                           Some (get_or_empty (form_medical_history data)) |}).
  { unfold get_patient_row in *. cbn [db_patients]. rewrite find_last, Eold.
    cbn [p_id]. rewrite String.eqb_refl. reflexivity. }
  split; [reflexivity|]. split; [|split; [|split]].
  - unfold get_patient. rewrite Eold. reflexivity.
  - unfold get_patient. rewrite Hnew. reflexivity.
  - intros id' Hid'. unfold get_patient, get_patient_row. cbn [db_patients].
    rewrite find_last. cbn [p_id].
    destruct (find (fun p => String.eqb (p_id p) id') (db_patients db)); [reflexivity|].
    destruct (String.eqb id id') eqn:E; [|reflexivity].
    apply String.eqb_eq in E. congruence.
  - unfold register_patient. rewrite Eid, Hnew. reflexivity.
Qed.

Lemma register_patient_then_get_witness :
  form_id toy_form = Some "P2"%string /\
  get_patient toy_db "P2" = Reply404 "Patient not found"%string /\
  get_patient (fst (register_patient toy_db toy_form)) "P2" =
    Reply200 {| p_id := "P2"%string; p_name := "Bea"%string; p_age := 7;
                p_gender := "F"%string; p_phone := "556"%string;
                p_email := Some EmptyString;
                p_medical_history := Some "asthma"%string |} /\
  (forall id, id <> "P2"%string ->
              get_patient (fst (register_patient toy_db toy_form)) id =
              get_patient toy_db id) /\
  register_patient (fst (register_patient toy_db toy_form)) toy_form =
    (fst (register_patient toy_db toy_form),
     Reply400 "Patient ID already exists"%string).
Proof.
  apply (register_patient_then_get toy_db (fst (register_patient toy_db toy_form))
           toy_form
           {| p_id := "P2"%string; p_name := "Bea"%string; p_age := 7;
              p_gender := "F"%string; p_phone := "556"%string;
              p_email := Some EmptyString;
              p_medical_history := Some "asthma"%string |}).
  reflexivity.
Defined.

(** ** The wait complete_appointment stores *)

Lemma div_core_nonneg (m1 e1 m2 e2 : Z) :
  0 <= m1 -> 0 < m2 ->
  let '(q, _, _) := SFdiv_core_binary prec emax m1 e1 m2 e2 in 0 <= q.
Proof.
  intros H1 H2. unfold SFdiv_core_binary.
  set (m' := match _ with Z.pos _ => _ | 0 => _ | Z.neg _ => _ end).
  assert (Hm' : 0 <= m').
  { subst m'. destruct (_ - _ - _) as [|s|s]; [exact H1| |lia].
    apply Z.shiftl_nonneg. exact H1. }
  pose proof (Z_div_mod m' m2 ltac:(lia)) as Hdiv.
  destruct (Z.div_eucl m' m2) as [q r]. destruct Hdiv as [Hq Hr]. nia.
Qed.

Lemma SFdiv_positive_sign (x : float) (my : positive) (ey : Z) :
  has_sign false x ->
  has_sign false (SFdiv prec emax x (S754_finite false my ey)).
Proof.
  destruct x as [s|s| |s mx ex]; cbn [has_sign]; try contradiction; intros ->;
    try reflexivity.
  unfold SFdiv.
  pose proof (div_core_nonneg (Zpos mx) ex (Zpos my) ey ltac:(lia) ltac:(lia)) as Hq.
  destruct (SFdiv_core_binary prec emax (Zpos mx) ex (Zpos my) ey) as [[q e] l].
  cbn [xorb]. apply Sign.binary_round_aux_sign. exact Hq.
Qed.

Lemma of_ratio_not_negative (a b : Z) : 0 <= a -> 0 < b -> has_sign false (of_ratio a b).
Proof.
  intros Ha Hb. destruct b as [|q|q]; [lia| |lia].
  destruct a as [|p|p]; [reflexivity| |lia].
  unfold of_ratio. apply SFdiv_positive_sign. reflexivity.
Qed.

Lemma py_int_not_negative (x : float) (n : Z) :
  has_sign false x -> py_int x = Ok n -> 0 <= n.
Proof.
  destruct x as [s|s| |s m e]; cbn [has_sign py_int]; try contradiction; intros ->;
    intros H; try discriminate H; injection H as <-; [lia|].
  destruct (Z.leb_spec 0 e) as [He|He].
  - assert (0 < 2 ^ e) by (apply Z.pow_pos_nonneg; lia).
    destruct (2 ^ e); lia.
  - apply Z.quot_pos; [lia|]. apply Z.pow_pos_nonneg; lia.
Qed.

Lemma wait_minutes_not_negative (called_at appointment_date : datetime) (w : Z) :
  microseconds appointment_date <= microseconds called_at ->
  wait_minutes called_at appointment_date = Ok w -> 0 <= w.
Proof.
  intros Horder. unfold wait_minutes. intros H.
  apply bind_ok in H. destruct H as (seconds & Hsec & Hint).
  apply (py_int_not_negative (SFdiv prec emax seconds f60_0)); [|exact Hint].
  apply SFdiv_positive_sign.
  unfold int_truediv in Hsec. cbn [Z.eqb] in Hsec.
  pose proof (of_ratio_not_negative
                (microseconds called_at - microseconds appointment_date) 1000000
                ltac:(lia) ltac:(lia)) as Hs.
  destruct (of_ratio (microseconds called_at - microseconds appointment_date) 1000000);
    try discriminate Hsec; injection Hsec as <-; exact Hs.
Qed.

(** X18.  When [complete_appointment] succeeds on an appointment that was
    called, and called no earlier than it was booked, the wait it replies
    and stores is a number of minutes that is not negative; the appointment
    is stored completed, with [completed_at] the time of the call. *)
Theorem complete_appointment_wait_not_negative (db db' : Db) (now called : datetime)
    (appointment_id : Z) (appointment : AppointmentRow) (wait : option Z) :
  get_appointment db appointment_id = Some appointment ->
  a_called_at appointment = Some called ->
  microseconds (a_appointment_date appointment) <= microseconds called ->
  complete_appointment db now appointment_id = (db', Reply200 wait) ->
  exists w,
    wait = Some w /\ 0 <= w /\
    wait_minutes called (a_appointment_date appointment) = Ok w /\
    get_appointment db' appointment_id = Some (with_completed now (Some w) appointment).
Proof.
  intros Hget Hcalled Horder. unfold complete_appointment. rewrite Hget, Hcalled.
  destruct (wait_minutes called (a_appointment_date appointment)) as [w|e] eqn:Hw;
    cbn [bind]; [|discriminate].
  destruct (get_doctor db (a_doctor_id appointment)) as [doctor|]; [|discriminate].
  intros H. injection H as <- <-. exists w. split; [reflexivity|].
  split; [eapply wait_minutes_not_negative; eassumption|]. split; [reflexivity|].
  unfold get_appointment at 1. cbn [db_appointments].
  apply get_changed_appointment; [reflexivity|exact Hget].
Qed.

Lemma complete_appointment_wait_not_negative_witness :
  exists w,
    Some 47 = Some w /\ 0 <= w /\
    wait_minutes monday_9_47 (a_appointment_date called_row) = Ok w /\
    get_appointment (fst (complete_appointment called_db next_monday_9am 1)) 1 =
      Some (with_completed next_monday_9am (Some w) called_row).
Proof.
  apply (complete_appointment_wait_not_negative called_db _ next_monday_9am monday_9_47
           1 called_row (Some 47)).
  - reflexivity.
  - reflexivity.
  - vm_compute. discriminate.
  - vm_compute. reflexivity.
Defined.
